(** * graphqlgen, TypeScript generator: [generators/typescript/generator.ts]

    A shallow embedding of the resolver-declaration generator.  The generator
    assembles TypeScript source text with template literals; the embedding
    builds the same text as [string]s, template by template.

    Conventions.
    - A template literal is written as the list of its lines, joined by a
      line feed ([lines]); interpolations are [++] inside a line.
    - [os.EOL] and the helpers imported from [../common] and [../../utils]
      are operations of the class [Externals]; [prettier] is the class
      [Prettier].
    - [console.log] appends to an explicit [Console].
    - A JavaScript object used as a dictionary is a [JsObj.t]: its own
      properties in enumeration order.
    - A [TypeError] raised by reading a property of [undefined] is an explicit
      [Throw] result. *)

From Stdlib Require Import String Ascii List Bool Arith Lia.
Import ListNotations.
Open Scope string_scope.

(** ** Text *)

Definition nl : string := String (ascii_of_nat 10) EmptyString.
Definition dquote : string := String (ascii_of_nat 34) EmptyString.

(** [Array.prototype.join] on an array of strings. *)
Definition join (sep : string) (xs : list string) : string := String.concat sep xs.

(** The lines of a template literal. *)
Definition lines (ls : list string) : string := join nl ls.

(** ** Exceptions *)

Inductive JsError : Type :=
| TypeError (what : string).

Inductive Result (A : Type) : Type :=
| Ok (a : A)
| Throw (e : JsError).
Arguments Ok {A} a.
Arguments Throw {A} e.

Definition bind {A B : Type} (r : Result A) (k : A -> Result B) : Result B :=
  match r with
  | Ok a => k a
  | Throw e => Throw e
  end.

Notation "x <- r ;; k" := (bind r (fun x => k))
  (at level 61, r at next level, right associativity).

(** [xs.map(f)] where [f] may throw: the first exception, left to right. *)
Fixpoint mapR {A B : Type} (f : A -> Result B) (xs : list A) : Result (list B) :=
  match xs with
  | [] => Ok []
  | x :: rest =>
      y <- f x ;;
      ys <- mapR f rest ;;
      Ok (y :: ys)
  end.

(** ** JavaScript objects used as dictionaries *)

Module JsObj.

(** Own enumerable string-keyed properties, in enumeration order (insertion
    order: GraphQL names are never integer-like).  What a plain object
    inherits from [Object.prototype] is not among its entries; [read] finds
    it. *)
Definition t (V : Type) : Type := list (string * V).

Definition empty {V : Type} : t V := [].

(** The own property [k] of [o], if there is one. *)
Fixpoint get {V : Type} (k : string) (o : t V) : option V :=
  match o with
  | [] => None
  | (k', v) :: rest => if k' =? k then Some v else get k rest
  end.

(** [{ ...o, [k]: v }]: an existing key keeps its place and takes the new
    value, a new key goes last. *)
Fixpoint set {V : Type} (k : string) (v : V) (o : t V) : t V :=
  match o with
  | [] => [(k, v)]
  | (k', v') :: rest =>
      if k' =? k then (k', v) :: rest else (k', v') :: set k v rest
  end.

(** [Object.keys(o)], also the order of [for (k in o)]. *)
Definition keys {V : Type} (o : t V) : list string := map fst o.

(** The properties every object built from [{}] inherits from
    [Object.prototype]; none is enumerable, all are truthy. *)
Definition inheritedNames : list string :=
  [ "constructor"; "hasOwnProperty"; "isPrototypeOf"; "propertyIsEnumerable";
    "toLocaleString"; "toString"; "valueOf"; "__proto__";
    "__defineGetter__"; "__defineSetter__"; "__lookupGetter__"; "__lookupSetter__" ].

Definition inherited (k : string) : bool := existsb (String.eqb k) inheritedNames.

(** The value of the expression [o[k]] on an object built from [{}]: an own
    property, else a property of [Object.prototype], else [undefined]. *)
Inductive Read (V : Type) : Type :=
| Own (v : V)
| Inherited
| Undefined.
Arguments Own {V} v.
Arguments Inherited {V}.
Arguments Undefined {V}.

Definition read {V : Type} (k : string) (o : t V) : Read V :=
  match get k o with
  | Some v => Own v
  | None => if inherited k then Inherited else Undefined
  end.

End JsObj.

(** ** The schema graph ([source-helper]) *)

(** [GraphQLTypeDefinition] / [GraphQLType]: a named type reference with the
    kind flags the generator reads. *)
Record GraphQLType : Type := mkType {
  type_name : string;
  isScalar : bool;
  isEnum : bool;
  isUnion : bool;
  isInput : bool;
  isObject : bool;
  isInterface : bool;
  isRequired : bool;
  isArray : bool
}.

Record GraphQLTypeArgument : Type := mkArgument {
  arg_name : string;
  arg_type : GraphQLType
}.

Record GraphQLTypeField : Type := mkField {
  field_name : string;
  field_type : GraphQLType;
  arguments : list GraphQLTypeArgument
}.

(** Modelled from the spec: the declaration of [GraphQLTypeObject] is not part
    of this file's source; section 3 gives an object type a name, its fields,
    an optional list of the interfaces it implements and a flag marking it as
    the root subscription type.  [obj_type] is the [type] property the
    generator reads the kind flags from. *)
Record GraphQLTypeObject : Type := mkObject {
  obj_name : string;
  obj_type : GraphQLType;
  obj_fields : list GraphQLTypeField;
  implements : option (list string);
  isSubscriptionRoot : bool
}.

Record GraphQLInterfaceObject : Type := mkInterface {
  itf_name : string;
  itf_type : GraphQLType;
  itf_fields : list GraphQLTypeField;
  implementors : list GraphQLType
}.

Record GraphQLUnionObject : Type := mkUnion {
  uni_name : string;
  uni_type : GraphQLType;
  types : list GraphQLType
}.

(** [GraphQLTypeObject | GraphQLInterfaceObject] *)
Inductive ObjectOrInterface : Type :=
| OfObject (o : GraphQLTypeObject)
| OfInterface (i : GraphQLInterfaceObject).

Definition oi_name (t : ObjectOrInterface) : string :=
  match t with
  | OfObject o => obj_name o
  | OfInterface i => itf_name i
  end.

Definition oi_type (t : ObjectOrInterface) : GraphQLType :=
  match t with
  | OfObject o => obj_type o
  | OfInterface i => itf_type i
  end.

Definition oi_fields (t : ObjectOrInterface) : list GraphQLTypeField :=
  match t with
  | OfObject o => obj_fields o
  | OfInterface i => itf_fields i
  end.

(** [(type as GraphQLTypeObject).implements]: an interface object has no such
    property, the read gives [undefined]. *)
Definition oi_implements (t : ObjectOrInterface) : option (list string) :=
  match t with
  | OfObject o => implements o
  | OfInterface _ => None
  end.

(** [GraphQLInterfaceObject | GraphQLUnionObject], told apart by [kind]. *)
Inductive AbstractType : Type :=
| KindInterface (i : GraphQLInterfaceObject)
| KindUnion (u : GraphQLUnionObject).

(** What [printFieldLikeType] is given: a field, or an argument cast to one. *)
Inductive FieldLike : Type :=
| FieldOf (f : GraphQLTypeField)
| ArgumentOf (a : GraphQLTypeArgument).

(** ** Models and generation arguments ([types], [introspection/types]) *)

(** [def_isEnum] is the truthiness of the property [isEnum] of a definition,
    read the way [renderImports] reads it: the property itself, not the
    result of a call. *)
Record TypeDefinition : Type := mkDefinition {
  def_kind : string;
  def_name : string;
  def_isEnum : bool
}.

Record Model : Type := mkModel {
  definition : TypeDefinition;
  importPathRelativeToOutput : string
}.

Definition ModelMap : Type := JsObj.t Model.

Record ContextDefinition : Type := mkContext {
  contextPath : string;
  interfaceName : string
}.

Record GenerateArgs : Type := mkArgs {
  args_types : list GraphQLTypeObject;
  args_interfaces : list GraphQLInterfaceObject;
  args_unions : list GraphQLUnionObject;
  args_context : option ContextDefinition;
  args_modelMap : ModelMap;
  defaultResolversEnabled : bool
}.

Definition InputTypesMap : Type := JsObj.t GraphQLTypeObject.
Definition TypeToInputTypeAssociation : Type := JsObj.t (list string).
Definition InterfacesMap : Type := JsObj.t (list GraphQLType).
Definition UnionsMap : Type := JsObj.t (list GraphQLType).

Record PrintOptions : Type := mkPrintOptions {
  isReturn : bool
}.

(** ** What the generator imports *)

(** [os.EOL], [upperFirst] of [../../utils] and the helpers of [../common].
    Their code is not in this file; they are taken as pure, total
    operations.  [getModelName]'s third argument is its optional
    [emptyType]. *)
Class Externals : Type := {
  EOL : string;
  upperFirst : string -> string;
  getContextName : option ContextDefinition -> string;
  getModelName : GraphQLType -> ModelMap -> option string -> string;
  printFieldLikeType :
    FieldLike -> ModelMap -> InterfacesMap -> UnionsMap ->
    option PrintOptions -> string;
  resolverReturnType : string -> string;
  renderDefaultResolvers : GraphQLTypeObject -> GenerateArgs -> string -> string;
  renderEnums : GenerateArgs -> string;
  groupModelsNameByImportPath : list Model -> JsObj.t (list string);
  createInterfacesMap : list GraphQLInterfaceObject -> InterfacesMap;
  createUnionsMap : list GraphQLUnionObject -> UnionsMap
}.

(** [prettier]: the formatter either returns the formatted text or throws. *)
Class Prettier : Type := {
  Options : Type;
  defaultOptions : Options;
  withParser : Options -> string -> Options;
  prettier_format : string -> Options -> string + JsError;
  JSON_stringify : JsError -> string
}.

(** Modelled from the spec: [union] of [../common] is not in this file; the
    examples of section 8 print the union of [UserModel] and [unknown] as
    [UserModel | unknown]. *)
Definition union (types : list string) : string := join " | " types.

(** First occurrences, in order. *)
Fixpoint distinct (xs : list string) : list string :=
  match xs with
  | [] => []
  | x :: rest => x :: filter (fun y => negb (y =? x)) (distinct rest)
  end.

(** Modelled from the spec: [getDistinctInputTypes] of [../common] is not in
    this file; by sections 4.1 and 4.5 an object type gets one input-type
    declaration per input type associated with it, deduplicated by name.
    Reading the association of a type that has none throws. *)
Definition getDistinctInputTypes
    (type : GraphQLTypeObject)
    (typeToInputTypeAssociation : TypeToInputTypeAssociation)
    (inputTypesMap : InputTypesMap) : Result (list string) :=
  match JsObj.get (obj_name type) typeToInputTypeAssociation with
  | Some names => Ok (distinct names)
  | None => Throw (TypeError "typeToInputTypeAssociation[type.name] is undefined")
  end.

(** ** The console *)

(** What [console.log] has printed so far, oldest first. *)
Definition Console : Type := list string.

(** A computation that may print. *)
Definition IO (A : Type) : Type := Console -> A * Console.

Definition ret {A : Type} (a : A) : IO A := fun out => (a, out).

Definition console_log (line : string) : IO unit :=
  fun out => (tt, (out ++ [line])%list).

Definition seq {A B : Type} (m : IO A) (k : A -> IO B) : IO B :=
  fun out => let (a, out') := m out in k a out'.

(** ** [format] *)

Section Format.
Context {P : Prettier}.

Definition format (code : string) (options : option Options) : IO string :=
  let options := match options with Some o => o | None => defaultOptions end in
  match prettier_format code (withParser options "typescript") with
  | inl formatted => ret formatted
  | inr e =>
      seq (console_log
             ("There is a syntax error in generated code, unformatted code printed, error: "
              ++ JSON_stringify e))
          (fun _ => ret code)
  end.

End Format.

(** ** The generator *)

Section Generator.
Context {X : Externals}.

(** *** Indexes built by [generate] *)

(** [inputTypesMap] of [generate]. *)
Definition inputTypesMapOf (args : GenerateArgs) : InputTypesMap :=
  fold_left
    (fun inputTypes type => JsObj.set (obj_name type) type inputTypes)
    (filter (fun type => isInput (obj_type type)) (args_types args))
    JsObj.empty.

(** [field.arguments.filter(arg => arg.type.isInput).map(arg => arg.type.name)] *)
Definition inputArgumentNames (field : GraphQLTypeField) : list string :=
  map (fun arg => type_name (arg_type arg))
      (filter (fun arg => isInput (arg_type arg)) (arguments field)).

(** [typeToInputTypeAssociation] of [generate]. *)
Definition typeToInputTypeAssociationOf (args : GenerateArgs)
  : TypeToInputTypeAssociation :=
  fold_left
    (fun types type =>
       JsObj.set (obj_name type)
                 (List.concat (map inputArgumentNames (obj_fields type)))
                 types)
    (filter
       (fun type =>
          isObject (obj_type type)
          && (0 <? List.length
                     (filter
                        (fun field =>
                           (0 <? List.length
                                   (filter (fun arg => isInput (arg_type arg))
                                           (arguments field)))%nat)
                        (obj_fields type)))%nat)
       (args_types args))
    JsObj.empty.

(** *** Header and imports *)

Definition importsToString (modelsByImportPaths : JsObj.t (list string)) : string :=
  join EOL
    (map
       (fun importPath =>
          "import { "
          ++ join ", " (match JsObj.get importPath modelsByImportPaths with
                        | Some names => names
                        | None => []
                        end)
          ++ " } from '" ++ importPath ++ "'")
       (JsObj.keys modelsByImportPaths)).

Definition renderImports (args : GenerateArgs) : string :=
  let modelsToImport :=
    flat_map
      (fun modelName =>
         match JsObj.get modelName (args_modelMap args) with
         | Some model => [model]
         | None => []
         end)
      (filter
         (fun modelName =>
            match JsObj.get modelName (args_modelMap args) with
            | Some model =>
                let modelDef := definition model in
                negb ((def_kind modelDef =? "TypeAliasDefinition")
                      && def_isEnum modelDef)
            | None => false
            end)
         (JsObj.keys (args_modelMap args))) in
  let modelsByImportPaths := groupModelsNameByImportPath modelsToImport in
  match args_context args with
  | Some context =>
      let importsFromContextPath :=
        match JsObj.get (contextPath context) modelsByImportPaths with
        | Some names => names
        | None => []
        end in
      importsToString
        (JsObj.set (contextPath context)
                   (importsFromContextPath ++ [getContextName (Some context)])%list
                   modelsByImportPaths)
  | None =>
      importsToString modelsByImportPaths ++ EOL
      ++ "type " ++ getContextName None ++ " = any"
  end.

Definition renderHeader (args : GenerateArgs) (hasPolymorphicObjects : bool) : string :=
  let imports :=
    if hasPolymorphicObjects
    then ["GraphQLResolveInfo"; "GraphQLIsTypeOfFn"]
    else ["GraphQLResolveInfo"] in
  lines
    [ "";
      "// Code generated by github.com/prisma/graphqlgen, DO NOT EDIT.";
      "";
      "import { " ++ join ", " imports ++ " } from 'graphql'";
      renderImports args;
      "  " ].

(** *** Abstract types: [__resolveType] *)

Definition renderStringConstant (x : string) : string := dquote ++ x ++ dquote.

Definition renderTypeResolveTypeResolver
    (abstractType : AbstractType) (args : GenerateArgs) : string :=
  let gqlObjects :=
    match abstractType with
    | KindInterface i => implementors i
    | KindUnion u => types u
    end in
  let modelNames :=
    map (fun gqlObj => getModelName gqlObj (args_modelMap args) None) gqlObjects in
  let gqlObjectNameTypes :=
    map (fun gqlObj => renderStringConstant (type_name gqlObj)) gqlObjects in
  lines
    [ "";
      "  (";
      "    value: " ++ union modelNames ++ ",";
      "    context: " ++ getContextName (args_context args) ++ ",";
      "    info: GraphQLResolveInfo";
      "  ) => " ++ resolverReturnType (union gqlObjectNameTypes);
      "  " ].

Definition renderUnionNamespace
    (graphQLTypeObject : GraphQLUnionObject) (args : GenerateArgs) : string :=
  lines
    [ "    export namespace " ++ uni_name graphQLTypeObject ++ "Resolvers {";
      "      export interface Type {";
      "        __resolveType?: "
      ++ renderTypeResolveTypeResolver (KindUnion graphQLTypeObject) args;
      "      }";
      "    }";
      "  " ].

(** *** Argument records *)

Definition renderInputArgInterface
    (field : GraphQLTypeField) (modelMap : ModelMap)
    (interfacesMap : InterfacesMap) (unionsMap : UnionsMap) : string :=
  if (List.length (arguments field) =? 0)%nat then ""
  else
    lines
      [ "";
        "  export interface Args" ++ upperFirst (field_name field) ++ " {";
        "    "
        ++ join EOL
             (map (fun arg =>
                     printFieldLikeType (ArgumentOf arg) modelMap
                                        interfacesMap unionsMap None)
                  (arguments field));
        "  }";
        "  " ].

Definition renderInputArgInterfaces
    (type : ObjectOrInterface) (modelMap : ModelMap)
    (interfacesMap : InterfacesMap) (unionsMap : UnionsMap) : string :=
  join EOL
    (map (fun field => renderInputArgInterface field modelMap interfacesMap unionsMap)
         (oi_fields type)).

Definition renderInterfaceNamespace
    (graphQLTypeObject : GraphQLInterfaceObject)
    (interfacesMap : InterfacesMap) (unionsMap : UnionsMap)
    (args : GenerateArgs) : string :=
  lines
    [ "    export namespace " ++ itf_name graphQLTypeObject ++ "Resolvers {";
      "      "
      ++ renderInputArgInterfaces (OfInterface graphQLTypeObject)
                                  (args_modelMap args) interfacesMap unionsMap;
      "";
      "      export interface Type {";
      "        __resolveType: "
      ++ renderTypeResolveTypeResolver (KindInterface graphQLTypeObject) args;
      "      }";
      "    }";
      "  " ].

(** *** [__isTypeOf] *)

(** The [reduce] over [type.implements]: the implementors of every
    implemented interface, appended in order.  Spreading the [undefined] of
    an interface that the map does not hold throws, as the language has it;
    a build that lowers the spread to [concat] differs on such an interface
    only. *)
Definition interfacePossibleTypes
    (interfaceNames : list string) (interfacesMap : InterfacesMap)
  : Result (list GraphQLType) :=
  fold_left
    (fun acc interfaceName =>
       obj <- acc ;;
       match JsObj.get interfaceName interfacesMap with
       | Some impls => Ok (obj ++ impls)%list
       | None => Throw (TypeError "interfacesMap[interfaceName] is not iterable")
       end)
    interfaceNames (Ok []).

(** The [for (let unionName in unionsMap)] loop: a union that lists the
    type assigns its members to [possibleTypes]. *)
Definition unionPossibleTypes
    (typeName : string) (unionsMap : UnionsMap)
    (possibleTypes : list GraphQLType) : list GraphQLType :=
  fold_left
    (fun possibleTypes unionName =>
       match JsObj.get unionName unionsMap with
       | Some members =>
           if existsb (fun unionType => type_name unionType =? typeName) members
           then members
           else possibleTypes
       | None => possibleTypes
       end)
    (JsObj.keys unionsMap) possibleTypes.

(** The member printed for a non-empty [possibleTypes]. *)
Definition isTypeOfMember
    (possibleTypes : list GraphQLType) (modelMap : ModelMap)
    (context : option ContextDefinition) : string :=
  "    __isTypeOf?: GraphQLIsTypeOfFn<"
  ++ join " | "
       (map (fun possibleType => getModelName possibleType modelMap None)
            possibleTypes)
  ++ ", " ++ getContextName context ++ ">;".

Definition renderIsTypeOfFunctionInterface
    (type : ObjectOrInterface) (modelMap : ModelMap)
    (interfacesMap : InterfacesMap) (unionsMap : UnionsMap)
    (context : option ContextDefinition) : Result string :=
  possibleTypes <-
    (if negb (isInterface (oi_type type))
     then match oi_implements type with
          | Some interfaceNames =>
              interfacePossibleTypes interfaceNames interfacesMap
          | None => Ok []
          end
     else Ok []) ;;
  let possibleTypes := unionPossibleTypes (oi_name type) unionsMap possibleTypes in
  if (List.length possibleTypes =? 0)%nat then Ok ""
  else Ok (isTypeOfMember possibleTypes modelMap context).

(** *** Input types used by an object type *)

(** One [export interface] per input type name.  [inputTypesMap[name]] of an
    unregistered name is [undefined], and reading its [name] throws, or it is
    a property of [Object.prototype], which has no [fields] to map over. *)
Definition renderInputTypeInterface
    (modelMap : ModelMap) (interfacesMap : InterfacesMap) (unionsMap : UnionsMap)
    (inputTypesMap : InputTypesMap) (typeAssociation : string) : Result string :=
  match JsObj.read typeAssociation inputTypesMap with
  | JsObj.Own inputType =>
      Ok (lines
            [ "export interface " ++ obj_name inputType ++ " {";
              "      "
              ++ join ","
                   (map (fun field =>
                           printFieldLikeType (FieldOf field) modelMap
                                              interfacesMap unionsMap None)
                        (obj_fields inputType));
              "    }" ])
  | JsObj.Inherited =>
      Throw (TypeError "inputTypesMap[typeAssociation].fields is undefined")
  | JsObj.Undefined => Throw (TypeError "inputTypesMap[typeAssociation] is undefined")
  end.

Definition renderInputTypeInterfaces
    (type : GraphQLTypeObject) (modelMap : ModelMap)
    (interfacesMap : InterfacesMap) (unionsMap : UnionsMap)
    (typeToInputTypeAssociation : TypeToInputTypeAssociation)
    (inputTypesMap : InputTypesMap) : Result string :=
  match JsObj.read (obj_name type) typeToInputTypeAssociation with
  | JsObj.Undefined => Ok ""
  | _ =>
      names <- getDistinctInputTypes type typeToInputTypeAssociation inputTypesMap ;;
      decls <- mapR (renderInputTypeInterface modelMap interfacesMap unionsMap
                                              inputTypesMap)
                    names ;;
      Ok (join EOL decls)
  end.

(** *** Field resolvers *)

(** The local [params] of [renderTypeResolver]. *)
Definition resolverParams (parent argsType ctx : string) : string :=
  lines
    [ "";
      "  (";
      "    parent: " ++ parent ++ ",";
      "    args: " ++ argsType ++ ",";
      "    ctx: " ++ ctx ++ ",";
      "    info: GraphQLResolveInfo,";
      "  )";
      "  " ].

(** The record returned for the type named [Subscription]. *)
Definition subscriptionResolver (params returnType : string) : string :=
  lines
    [ "";
      "    {";
      "      subscribe: " ++ params ++ " => "
      ++ resolverReturnType ("AsyncIterator<" ++ returnType ++ ">");
      "      resolve?: " ++ params ++ " => " ++ resolverReturnType returnType;
      "    }";
      "    " ].

(** The locals [func], [DelegatedParentResolver] and [resolver]. *)
Definition delegatedParentResolver (func : string) : string :=
  lines
    [ "";
      "    {";
      "      fragment: string";
      "      resolver: " ++ func;
      "    }";
      "  " ].

Definition functionOrDelegatedResolver (params returnType : string) : string :=
  let func := params ++ " => " ++ resolverReturnType returnType in
  union ["(" ++ func ++ ")"; delegatedParentResolver func].

Definition renderTypeResolver
    (field : GraphQLTypeField) (type : ObjectOrInterface) (modelMap : ModelMap)
    (interfacesMap : InterfacesMap) (unionsMap : UnionsMap)
    (context : option ContextDefinition) : Result string :=
  parent <-
    (if isInterface (oi_type type)
     then match JsObj.get (oi_name type) interfacesMap with
          | Some implementingTypes =>
              Ok (join " | "
                    (map (fun implType => getModelName implType modelMap (Some "undefined"))
                         implementingTypes))
          | None => Throw (TypeError "interfacesMap[type.name] is undefined")
          end
     else Ok (getModelName (oi_type type) modelMap (Some "undefined"))) ;;
  let params :=
    resolverParams
      parent
      (if (0 <? List.length (arguments field))%nat
       then "Args" ++ upperFirst (field_name field)
       else "{}")
      (getContextName context) in
  let returnType :=
    printFieldLikeType (FieldOf field) modelMap interfacesMap unionsMap
                       (Some (mkPrintOptions true)) in
  if oi_name type =? "Subscription"
  then Ok (subscriptionResolver params returnType)
  else Ok (functionOrDelegatedResolver params returnType).

Definition renderResolverFunctionInterfaces
    (type : GraphQLTypeObject) (modelMap : ModelMap)
    (interfacesMap : InterfacesMap) (unionsMap : UnionsMap)
    (context : option ContextDefinition) : Result string :=
  decls <-
    mapR (fun field =>
            resolver <- renderTypeResolver field (OfObject type) modelMap
                                           interfacesMap unionsMap context ;;
            Ok ("export type " ++ upperFirst (field_name field)
                ++ "Resolver = " ++ resolver))
         (obj_fields type) ;;
  Ok (join EOL decls).

Definition renderResolverTypeInterface
    (type : ObjectOrInterface) (modelMap : ModelMap)
    (interfacesMap : InterfacesMap) (unionsMap : UnionsMap)
    (context : option ContextDefinition) (interfaceName : option string)
  : Result string :=
  let interfaceName :=
    match interfaceName with Some n => n | None => "Type" end in
  members <-
    mapR (fun field =>
            resolver <- renderTypeResolver field type modelMap
                                           interfacesMap unionsMap context ;;
            Ok (field_name field ++ ": " ++ resolver))
         (oi_fields type) ;;
  isTypeOf <- renderIsTypeOfFunctionInterface type modelMap interfacesMap
                                              unionsMap context ;;
  Ok (lines
        [ "";
          "  export interface " ++ interfaceName ++ " {";
          "    " ++ join EOL members;
          "      " ++ isTypeOf;
          "  }";
          "  " ]).

(** *** Declaration groups *)

Definition renderNamespace
    (graphQLTypeObject : GraphQLTypeObject)
    (interfacesMap : InterfacesMap) (unionsMap : UnionsMap)
    (typeToInputTypeAssociation : TypeToInputTypeAssociation)
    (inputTypesMap : InputTypesMap) (args : GenerateArgs) : Result string :=
  let defaults :=
    if defaultResolversEnabled args
    then renderDefaultResolvers graphQLTypeObject args "defaultResolvers"
    else "" in
  inputTypes <- renderInputTypeInterfaces graphQLTypeObject (args_modelMap args)
                  interfacesMap unionsMap typeToInputTypeAssociation
                  inputTypesMap ;;
  let inputArgs :=
    renderInputArgInterfaces (OfObject graphQLTypeObject) (args_modelMap args)
                             interfacesMap unionsMap in
  functions <- renderResolverFunctionInterfaces graphQLTypeObject
                 (args_modelMap args) interfacesMap unionsMap
                 (args_context args) ;;
  typeInterface <- renderResolverTypeInterface (OfObject graphQLTypeObject)
                     (args_modelMap args) interfacesMap unionsMap
                     (args_context args) None ;;
  Ok (lines
        [ "    export namespace " ++ obj_name graphQLTypeObject ++ "Resolvers {";
          "";
          "    " ++ defaults;
          "";
          "    " ++ inputTypes;
          "";
          "    " ++ inputArgs;
          "";
          "    " ++ functions;
          "";
          "    " ++ typeInterface;
          "";
          "    " ++ "";
          "  }";
          "  " ]).

Definition renderObjectNamespaces
    (args : GenerateArgs)
    (interfacesMap : InterfacesMap) (unionsMap : UnionsMap)
    (typeToInputTypeAssociation : TypeToInputTypeAssociation)
    (inputTypesMap : InputTypesMap) : Result string :=
  groups <-
    mapR (fun type =>
            renderNamespace type interfacesMap unionsMap
                            typeToInputTypeAssociation inputTypesMap args)
         (filter (fun type => isObject (obj_type type)) (args_types args)) ;;
  Ok (join EOL groups).

Definition renderInterfaceNamespaces
    (args : GenerateArgs)
    (interfacesMap : InterfacesMap) (unionsMap : UnionsMap) : string :=
  join EOL
    (map (fun type => renderInterfaceNamespace type interfacesMap unionsMap args)
         (args_interfaces args)).

Definition renderUnionNamespaces (args : GenerateArgs) : string :=
  join EOL (map (fun type => renderUnionNamespace type args) (args_unions args)).

Definition renderNamespaces
    (args : GenerateArgs)
    (interfacesMap : InterfacesMap) (unionsMap : UnionsMap)
    (typeToInputTypeAssociation : TypeToInputTypeAssociation)
    (inputTypesMap : InputTypesMap) : Result string :=
  objects <- renderObjectNamespaces args interfacesMap unionsMap
               typeToInputTypeAssociation inputTypesMap ;;
  Ok (lines
        [ "    " ++ objects;
          "";
          "    " ++ renderInterfaceNamespaces args interfacesMap unionsMap;
          "";
          "    " ++ renderUnionNamespaces args;
          "  " ]).

(** *** The aggregate [Resolvers] declaration *)

(** [Name: NameResolvers.Type] *)
Definition requiredEntry (name : string) : string :=
  name ++ ": " ++ name ++ "Resolvers.Type".

(** [Name?: NameResolvers.Type] *)
Definition optionalEntry (name : string) : string :=
  name ++ "?: " ++ name ++ "Resolvers.Type".

(** The array joined inside [renderResolvers]. *)
Definition resolversEntries (args : GenerateArgs) : list string :=
  (map (fun type => requiredEntry (obj_name type))
       (filter (fun obj => isObject (obj_type obj)) (args_types args))
   ++ map (fun type => optionalEntry (itf_name type)) (args_interfaces args)
   ++ map (fun type => optionalEntry (uni_name type)) (args_unions args))%list.

Definition renderResolvers (args : GenerateArgs) : string :=
  lines
    [ "export interface Resolvers {";
      "  " ++ join EOL (resolversEntries args);
      "}";
      "  " ].

(** *** [generate] *)

Definition generate (args : GenerateArgs) : Result string :=
  let inputTypesMap := inputTypesMapOf args in
  let typeToInputTypeAssociation := typeToInputTypeAssociationOf args in
  let interfacesMap := createInterfacesMap (args_interfaces args) in
  let unionsMap := createUnionsMap (args_unions args) in
  let hasPolymorphicObjects :=
    (0 <? List.length (JsObj.keys interfacesMap))%nat
    || (0 <? List.length (JsObj.keys unionsMap))%nat in
  let header := renderHeader args hasPolymorphicObjects in
  let enums := renderEnums args in
  namespaces <- renderNamespaces args interfacesMap unionsMap
                  typeToInputTypeAssociation inputTypesMap ;;
  Ok (lines
        [ "  " ++ header;
          "";
          "  " ++ enums;
          "";
          "  " ++ namespaces;
          "";
          "  " ++ renderResolvers args;
          "";
          "  " ]).

End Generator.

(** ** Vocabulary of the specification *)

Section Vocabulary.
Context {X : Externals}.

(** A member of an emitted [interface] body: [name: type] when mandatory,
    [name?: type] when optional. *)
Record Member : Type := mkMember {
  member_name : string;
  member_optional : bool;
  member_type : string
}.

Definition printMember (m : Member) : string :=
  member_name m ++ (if member_optional m then "?" else "") ++ ": " ++ member_type m.

(** The discriminating resolver of an abstract type over its concrete
    [members]: [(value, context, info) => names], the value being one of the
    members' models and the result one of their quoted names. *)
Definition resolveTypeSignature
    (members : list GraphQLType) (args : GenerateArgs) : string :=
  lines
    [ "";
      "  (";
      "    value: "
      ++ join " | " (map (fun m => getModelName m (args_modelMap args) None) members)
      ++ ",";
      "    context: " ++ getContextName (args_context args) ++ ",";
      "    info: GraphQLResolveInfo";
      "  ) => "
      ++ resolverReturnType
           (join " | " (map (fun m => dquote ++ type_name m ++ dquote) members));
      "  " ].



(** The parameter list of a resolver, written out: [parent], [args], [ctx]
    and [info] with their types. *)
Definition signatureText (parent argsType ctx : string) : string :=
  lines
    [ "";
      "  (";
      "    parent: " ++ parent ++ ",";
      "    args: " ++ argsType ++ ",";
      "    ctx: " ++ ctx ++ ",";
      "    info: GraphQLResolveInfo,";
      "  )";
      "  " ].

(** The subscription record, written out: a mandatory [subscribe] returning
    the resolver return type of an [AsyncIterator] of the result type, and an
    optional [resolve] returning that of the result type. *)
Definition subscriptionRecordText (signature returnType : string) : string :=
  lines
    [ "";
      "    {";
      "      "
      ++ printMember
           (mkMember "subscribe" false
              (signature ++ " => "
               ++ resolverReturnType ("AsyncIterator<" ++ returnType ++ ">")));
      "      "
      ++ printMember
           (mkMember "resolve" true
              (signature ++ " => " ++ resolverReturnType returnType));
      "    }";
      "    " ].

(** The choice between a plain function and the delegated form, written out:
    the function in parentheses, [ | ], and the record of a [fragment] string
    and a [resolver] that is the same function. *)
Definition functionOrDelegatedText (signature returnType : string) : string :=
  ("(" ++ (signature ++ " => " ++ resolverReturnType returnType) ++ ")")
  ++ " | "
  ++ lines
       [ "";
         "    {";
         "      " ++ printMember (mkMember "fragment" false "string");
         "      "
         ++ printMember
              (mkMember "resolver" false
                 (signature ++ " => " ++ resolverReturnType returnType));
         "    }";
         "  " ].

(** A text is the subscription record over some resolver signature and
    result type; a text is the function-or-delegated choice over some. *)
Definition isSubscriptionRecordText (out : string) : Prop :=
  exists parent argsType ctx returnType,
    out = subscriptionRecordText (signatureText parent argsType ctx) returnType.

Definition isFunctionOrDelegatedText (out : string) : Prop :=
  exists parent argsType ctx returnType,
    out = functionOrDelegatedText (signatureText parent argsType ctx) returnType.



(** The name a field's argument record is declared under. *)
Definition argsRecordName (field : GraphQLTypeField) : string :=
  "Args" ++ upperFirst (field_name field).

(** The declaration of a field's argument record. *)
Definition argsRecordDeclaration
    (field : GraphQLTypeField) (modelMap : ModelMap)
    (interfacesMap : InterfacesMap) (unionsMap : UnionsMap) : string :=
  lines
    [ "";
      "  export interface " ++ argsRecordName field ++ " {";
      "    "
      ++ join EOL
           (map (fun arg =>
                   printFieldLikeType (ArgumentOf arg) modelMap
                                      interfacesMap unionsMap None)
                (arguments field));
      "  }";
      "  " ].

(** An input type is referenced directly by an argument of a field of the
    object type. *)
Definition directlyReferenced (type : GraphQLTypeObject) (inputName : string) : Prop :=
  exists field arg,
    In field (obj_fields type)
    /\ In arg (arguments field)
    /\ isInput (arg_type arg) = true
    /\ type_name (arg_type arg) = inputName.

(** Some argument of some field of the type is of an input type: the test
    [generate] applies before it associates input types with a type. *)
Definition hasInputArguments (type : GraphQLTypeObject) : bool :=
  (0 <? List.length
          (filter
             (fun field =>
                (0 <? List.length
                        (filter (fun arg => isInput (arg_type arg))
                                (arguments field)))%nat)
             (obj_fields type)))%nat.

(** The declaration emitted for the input type registered under a name. *)
Definition inputTypeDeclaration
    (modelMap : ModelMap) (interfacesMap : InterfacesMap) (unionsMap : UnionsMap)
    (inputTypesMap : InputTypesMap) (inputName : string) : string :=
  lines
    [ "export interface " ++ inputName ++ " {";
      "      "
      ++ join ","
           (map (fun field =>
                   printFieldLikeType (FieldOf field) modelMap
                                      interfacesMap unionsMap None)
                (match JsObj.get inputName inputTypesMap with
                 | Some inputType => obj_fields inputType
                 | None => []
                 end));
      "    }" ].

(** The union key enumerated last among those whose members list the type. *)
Definition listsType (typeName : string) (unionsMap : UnionsMap) (unionName : string)
  : bool :=
  match JsObj.get unionName unionsMap with
  | Some members => existsb (fun unionType => type_name unionType =? typeName) members
  | None => false
  end.

Definition lastListingUnion (typeName : string) (unionsMap : UnionsMap)
  : option (list GraphQLType) :=
  match find (listsType typeName unionsMap) (rev (JsObj.keys unionsMap)) with
  | Some unionName => JsObj.get unionName unionsMap
  | None => None
  end.

(** Every concrete type the object type can stand among: the implementors
    of the interfaces it implements and the members of the unions that
    list it. *)
Definition possibleConcreteType
    (type : GraphQLTypeObject) (interfacesMap : InterfacesMap)
    (unionsMap : UnionsMap) (candidate : GraphQLType) : Prop :=
  (exists interfaceNames interfaceName impls,
      implements type = Some interfaceNames
      /\ In interfaceName interfaceNames
      /\ JsObj.get interfaceName interfacesMap = Some impls
      /\ In candidate impls)
  \/ (exists unionName members,
        JsObj.get unionName unionsMap = Some members
        /\ existsb (fun unionType => type_name unionType =? obj_name type) members = true
        /\ In candidate members).

(** Every interface name of the list is a key of the interfaces map. *)
Definition knownInterfaces (interfaceNames : list string) (interfacesMap : InterfacesMap)
  : bool :=
  forallb
    (fun interfaceName =>
       match JsObj.get interfaceName interfacesMap with
       | Some _ => true
       | None => false
       end)
    interfaceNames.

(** The implementors the interfaces map gives for each name, one list after
    the other. *)
Definition implementorsOf (interfaceNames : list string) (interfacesMap : InterfacesMap)
  : list GraphQLType :=
  flat_map
    (fun interfaceName =>
       match JsObj.get interfaceName interfacesMap with
       | Some impls => impls
       | None => []
       end)
    interfaceNames.

(** The model is one [renderImports] leaves out: its definition is of kind
    [TypeAliasDefinition] and has a truthy [isEnum] property. *)
Definition isEnumAlias (model : Model) : bool :=
  (def_kind (definition model) =? "TypeAliasDefinition") && def_isEnum (definition model).


(** The alias declared for a field's resolver and the member of the type's
    contract for the same field. *)
Definition resolverAlias (entry : GraphQLTypeField * string) : string :=
  "export type " ++ upperFirst (field_name (fst entry)) ++ "Resolver = " ++ snd entry.

Definition resolverMember (entry : GraphQLTypeField * string) : string :=
  field_name (fst entry) ++ ": " ++ snd entry.

(** The graph is one [generate] renders without a lookup failure: no object
    type bears the name of a property of [Object.prototype] or is flagged as
    an interface, object types bear different names, the input types of their
    arguments are declared and the interfaces they implement are known. *)
Record renderable (args : GenerateArgs) : Prop := {
  objects_not_inherited :
    forall type,
      In type (args_types args) -> isObject (obj_type type) = true ->
      JsObj.inherited (obj_name type) = false;
  objects_not_interfaces :
    forall type,
      In type (args_types args) -> isObject (obj_type type) = true ->
      isInterface (obj_type type) = false;
  objects_named_once :
    forall type other,
      In type (args_types args) -> isObject (obj_type type) = true ->
      In other (args_types args) -> isObject (obj_type other) = true ->
      obj_name other = obj_name type -> other = type;
  inputs_registered :
    forall type inputName,
      In type (args_types args) -> isObject (obj_type type) = true ->
      directlyReferenced type inputName ->
      exists input,
        In input (args_types args) /\ isInput (obj_type input) = true
        /\ obj_name input = inputName;
  interfaces_known :
    forall type interfaceNames,
      In type (args_types args) -> isObject (obj_type type) = true ->
      implements type = Some interfaceNames ->
      knownInterfaces interfaceNames (createInterfacesMap (args_interfaces args)) = true
}.

(** The models of the model map that [renderImports] does not leave out, in
    the order of the map. *)
Definition importedModels (modelMap : ModelMap) : list Model :=
  map snd (filter (fun entry => negb (isEnumAlias (snd entry))) modelMap).

(** The import statement of one path and the names imported from it. *)
Definition importLine (entry : string * list string) : string :=
  "import { " ++ join ", " (snd entry) ++ " } from '" ++ fst entry ++ "'".

End Vocabulary.

(** ** A sample platform and sample schemas

    Stand-ins for the imported helpers, used to evaluate the generator on
    concrete schemas. *)

Module Sample.

Definition upperFirstAscii (s : string) : string :=
  match s with
  | EmptyString => EmptyString
  | String c rest =>
      let n := nat_of_ascii c in
      String (if ((97 <=? n) && (n <=? 122))%nat then ascii_of_nat (n - 32) else c)
             rest
  end.

Definition contextNameOf (context : option ContextDefinition) : string :=
  match context with
  | Some c => interfaceName c
  | None => "Context"
  end.

Definition modelNameOf
    (type : GraphQLType) (modelMap : ModelMap) (emptyType : option string) : string :=
  if isEnum type then type_name type
  else match JsObj.get (type_name type) modelMap with
       | Some model => def_name (definition model)
       | None => match emptyType with Some e => e | None => "{}" end
       end.

Definition printNameAndType
    (field : FieldLike) (modelMap : ModelMap) (interfacesMap : InterfacesMap)
    (unionsMap : UnionsMap) (options : option PrintOptions) : string :=
  match options with
  | Some (mkPrintOptions true) =>
      match field with
      | FieldOf f => modelNameOf (field_type f) modelMap (Some (type_name (field_type f)))
      | ArgumentOf a => modelNameOf (arg_type a) modelMap (Some (type_name (arg_type a)))
      end
  | _ =>
      match field with
      | FieldOf f => field_name f ++ ": " ++ type_name (field_type f)
      | ArgumentOf a => arg_name a ++ ": " ++ type_name (arg_type a)
      end
  end.

Definition valueOrPromise (returnType : string) : string :=
  returnType ++ " | Promise<" ++ returnType ++ ">".

Definition groupByImportPath (models : list Model) : JsObj.t (list string) :=
  fold_left
    (fun acc model =>
       JsObj.set (importPathRelativeToOutput model)
                 (match JsObj.get (importPathRelativeToOutput model) acc with
                  | Some names => names ++ [def_name (definition model)]
                  | None => [def_name (definition model)]
                  end)%list
                 acc)
    models JsObj.empty.

Definition interfacesMapOf (interfaces : list GraphQLInterfaceObject)
  : InterfacesMap :=
  fold_left (fun m i => JsObj.set (itf_name i) (implementors i) m) interfaces JsObj.empty.

Definition unionsMapOf (unions : list GraphQLUnionObject) : UnionsMap :=
  fold_left (fun m u => JsObj.set (uni_name u) (types u) m) unions JsObj.empty.

#[export] Instance externals : Externals := {|
  EOL := nl;
  upperFirst := upperFirstAscii;
  getContextName := contextNameOf;
  getModelName := modelNameOf;
  printFieldLikeType := printNameAndType;
  resolverReturnType := valueOrPromise;
  renderDefaultResolvers := fun _ _ _ => "";
  renderEnums := fun _ => "";
  groupModelsNameByImportPath := groupByImportPath;
  createInterfacesMap := interfacesMapOf;
  createUnionsMap := unionsMapOf
|}.

(** A formatter that rejects any text starting with a closing brace and
    otherwise ends the text with a line feed. *)
#[export] Instance prettier : Prettier := {|
  Options := list (string * string);
  defaultOptions := [];
  withParser := fun options parser => (options ++ [("parser", parser)])%list;
  prettier_format := fun code _ =>
    if String.prefix "}" code
    then inr (TypeError "SyntaxError: Declaration or statement expected")
    else inl (code ++ nl);
  JSON_stringify := fun e => match e with TypeError what => "{}" end
|}.

(** Type references. *)
Definition scalarRef (name : string) : GraphQLType :=
  mkType name true false false false false false false false.
Definition inputRef (name : string) : GraphQLType :=
  mkType name false false false true false false false false.
Definition objectRef (name : string) : GraphQLType :=
  mkType name false false false false true false false false.
Definition interfaceRef (name : string) : GraphQLType :=
  mkType name false false false false false true false false.
Definition unionRef (name : string) : GraphQLType :=
  mkType name false false true false false false false false.

Definition modelOf (name : string) : string * Model :=
  (name, mkModel (mkDefinition "InterfaceDefinition" (name ++ "Model") false) "./models").

(** [type Events { tick: Int }], the root subscription type of its schema
    ([schema { subscription: Events }]). *)
Definition tick : GraphQLTypeField := mkField "tick" (scalarRef "Int") [].
Definition Events : GraphQLTypeObject :=
  mkObject "Events" (objectRef "Events") [tick] None true.

(** [type Subscription { tick: Int }], an ordinary object type of a schema
    whose root subscription type is [Events]. *)
Definition SubscriptionObject : GraphQLTypeObject :=
  mkObject "Subscription" (objectRef "Subscription") [tick] None false.

(** [interface Subscription { tick: Int }], implemented by [Events]. *)
Definition SubscriptionInterface : GraphQLInterfaceObject :=
  mkInterface "Subscription" (interfaceRef "Subscription") [tick] [objectRef "Events"].

(** [type Query { tick: Int }] *)
Definition Query : GraphQLTypeObject :=
  mkObject "Query" (objectRef "Query") [tick] None false.

(** [interface Animal], implemented by [Cat] and [Dog]; [union Pet = Cat |
    Fish]; [type Cat implements Animal { name: String }]. *)
Definition name_field : GraphQLTypeField := mkField "name" (scalarRef "String") [].
Definition Cat : GraphQLTypeObject :=
  mkObject "Cat" (objectRef "Cat") [name_field] (Some ["Animal"]) false.
Definition Dog : GraphQLTypeObject :=
  mkObject "Dog" (objectRef "Dog") [name_field] (Some ["Animal"]) false.
Definition Fish : GraphQLTypeObject :=
  mkObject "Fish" (objectRef "Fish") [name_field] None false.
Definition Animal : GraphQLInterfaceObject :=
  mkInterface "Animal" (interfaceRef "Animal") [name_field]
              [objectRef "Cat"; objectRef "Dog"].
Definition Pet : GraphQLUnionObject :=
  mkUnion "Pet" (unionRef "Pet") [objectRef "Cat"; objectRef "Fish"].

Definition petInterfaces : InterfacesMap := interfacesMapOf [Animal].
Definition petUnions : UnionsMap := unionsMapOf [Pet].
Definition petModels : ModelMap := [modelOf "Cat"; modelOf "Dog"; modelOf "Fish"].

(** [input PostFilter { tag: String }], [input Page { first: Int }] and
    [type Blog { posts(filter: PostFilter, again: PostFilter, page: Page,
    limit: Int): String, title: String }]. *)
Definition PostFilter : GraphQLTypeObject :=
  mkObject "PostFilter" (inputRef "PostFilter")
           [mkField "tag" (scalarRef "String") []] None false.
Definition Page : GraphQLTypeObject :=
  mkObject "Page" (inputRef "Page") [mkField "first" (scalarRef "Int") []] None false.
Definition posts : GraphQLTypeField :=
  mkField "posts" (scalarRef "String")
          [ mkArgument "filter" (inputRef "PostFilter");
            mkArgument "again" (inputRef "PostFilter");
            mkArgument "page" (inputRef "Page");
            mkArgument "limit" (scalarRef "Int") ].
Definition title : GraphQLTypeField := mkField "title" (scalarRef "String") [].
Definition Blog : GraphQLTypeObject :=
  mkObject "Blog" (objectRef "Blog") [posts; title] None false.

Definition blogArgs : GenerateArgs :=
  mkArgs [Blog; PostFilter; Page; Query] [Animal] [Pet] None [] false.

(** A model whose definition is a type alias with a truthy [isEnum], beside
    the models of two of the pets. *)
Definition roleModel : string * Model :=
  ("Role", mkModel (mkDefinition "TypeAliasDefinition" "Role" true) "./enums").
Definition modelsWithEnum : ModelMap := [modelOf "Cat"; roleModel; modelOf "Dog"].

(** [type Shop { items(filter: ItemFilter): String }] in a graph that does not
    declare [input ItemFilter]. *)
Definition items : GraphQLTypeField :=
  mkField "items" (scalarRef "String") [mkArgument "filter" (inputRef "ItemFilter")].
Definition Shop : GraphQLTypeObject :=
  mkObject "Shop" (objectRef "Shop") [items] None false.
Definition shopArgs : GenerateArgs := mkArgs [Query; Shop] [] [] None [] false.


(** The pets as a graph. *)
Definition petArgs : GenerateArgs :=
  mkArgs [Cat; Dog; Fish] [Animal] [Pet] None petModels false.

End Sample.

(** * Properties *)

(** ** Text *)

Lemma length_append (a b : string) :
  String.length (a ++ b) = String.length a + String.length b.
Proof.
  induction a as [|c a IH]; simpl; [reflexivity | now rewrite IH].
Qed.

Lemma append_inv_head (a b c : string) : a ++ b = a ++ c -> b = c.
Proof.
  induction a as [|x a IH]; simpl; intros H; [assumption|].
  injection H as H. now apply IH.
Qed.

Lemma append_inj_length (a a' b b' : string) :
  String.length a = String.length a' -> a ++ b = a' ++ b' -> a = a' /\ b = b'.
Proof.
  revert a'. induction a as [|x a IH]; intros [|x' a'] Hlen H; simpl in *;
    try discriminate.
  - now split.
  - injection H as Hx H. injection Hlen as Hlen.
    destruct (IH a' Hlen H) as [-> ->]. now subst.
Qed.


(** ** Dictionaries *)

Lemma get_set_same {V : Type} (k : string) (v : V) (o : JsObj.t V) :
  JsObj.get k (JsObj.set k v o) = Some v.
Proof.
  induction o as [|[k' v'] o IH]; simpl.
  - now rewrite String.eqb_refl.
  - destruct (k' =? k) eqn:E; simpl; rewrite E; [reflexivity | exact IH].
Qed.

Lemma get_set_other {V : Type} (k k' : string) (v : V) (o : JsObj.t V) :
  k' <> k -> JsObj.get k (JsObj.set k' v o) = JsObj.get k o.
Proof.
  intros Hne. induction o as [|[k0 v0] o IH]; simpl.
  - apply String.eqb_neq in Hne. now rewrite Hne.
  - destruct (k0 =? k') eqn:E; simpl.
    + apply String.eqb_eq in E. subst k0.
      apply String.eqb_neq in Hne. now rewrite Hne.
    + destruct (k0 =? k); [reflexivity | exact IH].
Qed.

Lemma read_own {V : Type} (k : string) (o : JsObj.t V) (v : V) :
  JsObj.get k o = Some v -> JsObj.read k o = JsObj.Own v.
Proof. unfold JsObj.read. now intros ->. Qed.

Lemma read_not_own {V : Type} (k : string) (o : JsObj.t V) :
  JsObj.get k o = None ->
  JsObj.read k o = if JsObj.inherited k then JsObj.Inherited else JsObj.Undefined.
Proof. unfold JsObj.read. now intros ->. Qed.

(** A dictionary built by a [reduce] that sets one key per element: a key no
    element sets keeps its initial binding. *)
Lemma get_reduce_other {T V : Type} (key : T -> string) (val : T -> V)
    (l : list T) (o : JsObj.t V) (k : string) :
  (forall t, In t l -> key t <> k) ->
  JsObj.get k (fold_left (fun m t => JsObj.set (key t) (val t) m) l o) = JsObj.get k o.
Proof.
  revert o. induction l as [|t l IH]; intros o H; simpl; [reflexivity|].
  rewrite IH by (intros t' Ht'; apply H; now right).
  apply get_set_other. apply H. now left.
Qed.

(** ... and a key some element sets is bound to the value of one of the
    elements that set it. *)
Lemma get_reduce_some {T V : Type} (key : T -> string) (val : T -> V)
    (l : list T) (o : JsObj.t V) (k : string) :
  (exists t, In t l /\ key t = k) ->
  exists t,
    In t l /\ key t = k
    /\ JsObj.get k (fold_left (fun m t => JsObj.set (key t) (val t) m) l o)
       = Some (val t).
Proof.
  revert o. induction l as [|t l IH]; intros o [t0 [Hin Hk]]; [destruct Hin|].
  simpl.
  destruct (in_dec string_dec k (map key l)) as [Hlater | Hnot].
  - apply in_map_iff in Hlater. destruct Hlater as [t1 [Hk1 Hin1]].
    destruct (IH (JsObj.set (key t) (val t) o)) as [t2 [Hin2 [Hk2 Hget]]].
    + now exists t1.
    + exists t2. split; [now right | now split].
  - destruct Hin as [Heq | Hin].
    + subst t0. exists t. split; [now left |]. split; [exact Hk |].
      rewrite get_reduce_other.
      * rewrite <- Hk. apply get_set_same.
      * intros t' Ht' Hk'. apply Hnot. apply in_map_iff. now exists t'.
    + exfalso. apply Hnot. apply in_map_iff. now exists t0.
Qed.

Lemma get_reduce_same {T V : Type} (key : T -> string) (val : T -> V)
    (l : list T) (o : JsObj.t V) (k : string) (v : V) :
  (exists t, In t l /\ key t = k) ->
  (forall t, In t l -> key t = k -> val t = v) ->
  JsObj.get k (fold_left (fun m t => JsObj.set (key t) (val t) m) l o) = Some v.
Proof.
  intros Hex Hv.
  destruct (get_reduce_some key val l o k Hex) as [t [Hin [Hk Hget]]].
  rewrite Hget. f_equal. now apply Hv.
Qed.

(** ** First occurrences *)

Lemma distinct_In (xs : list string) (x : string) : In x (distinct xs) <-> In x xs.
Proof.
  induction xs as [|y xs IH]; simpl; [tauto|].
  rewrite filter_In, IH, negb_true_iff, String.eqb_neq.
  destruct (string_dec y x) as [-> | Hne]; [tauto|].
  split; [tauto|]. intros [H | H]; [tauto|]. right. split; [assumption|].
  congruence.
Qed.

Lemma distinct_NoDup (xs : list string) : NoDup (distinct xs).
Proof.
  induction xs as [|y xs IH]; simpl; constructor.
  - rewrite filter_In, negb_true_iff, String.eqb_neq. tauto.
  - now apply NoDup_filter.
Qed.

(** ** [format] *)

(** C8.  When the formatter throws on the assembled text, [format] prints one
    diagnostic and returns the text it was given, unchanged; when the
    formatter succeeds, [format] returns the formatter's output and prints
    nothing. *)
Theorem format_keeps_code_on_failure {P : Prettier}
    (code : string) (options : option Options) (console : Console) :
  let given := withParser (match options with Some o => o | None => defaultOptions end)
                          "typescript" in
  (forall e,
      prettier_format code given = inr e ->
      format code options console
      = (code,
         (console
          ++ [("There is a syntax error in generated code, unformatted code printed, error: "
               ++ JSON_stringify e)%string])%list))
  /\ (forall formatted,
         prettier_format code given = inl formatted ->
         format code options console = (formatted, console)).
Proof.
  intros given. unfold format. fold given. split.
  - intros e He. now rewrite He.
  - intros formatted Hf. now rewrite Hf.
Qed.

Lemma format_keeps_code_on_failure_witness :
  format (P := Sample.prettier) "} export" None []
  = ("} export",
     ["There is a syntax error in generated code, unformatted code printed, error: {}"])
  /\ format (P := Sample.prettier) "type A = number" None []
     = ("type A = number" ++ nl, []).
Proof.
  split.
  - apply (proj1 (format_keeps_code_on_failure (P := Sample.prettier)
                    "} export" None [])
                 (TypeError "SyntaxError: Declaration or statement expected")).
    reflexivity.
  - apply (proj2 (format_keeps_code_on_failure (P := Sample.prettier)
                    "type A = number" None [])).
    reflexivity.
Defined.

(** ** The aggregate [Resolvers] declaration *)

Section Resolvers.
Context {X : Externals}.










End Resolvers.


(** ** Abstract types *)

Section AbstractTypes.
Context {X : Externals}.

Lemma optional_member_differs (name type type' : string) :
  printMember (mkMember name false type) <> printMember (mkMember name true type').
Proof.
  unfold printMember. simpl. intros H.
  apply append_inv_head in H. discriminate H.
Qed.

(** C4.  The contract of an interface has the member [__resolveType],
    mandatory; the contract of a union has the same member, optional.  In
    both the member's type is the signature over [(value, context, info)]
    whose value is one of the models of the implementors (of the members,
    for a union) and whose result is the resolver return type of one of
    their quoted names. *)
Theorem resolveType_mandatory_for_interface_optional_for_union :
  (forall (type : GraphQLInterfaceObject) interfacesMap unionsMap (args : GenerateArgs),
      renderInterfaceNamespace type interfacesMap unionsMap args
      = lines
          [ "    export namespace " ++ itf_name type ++ "Resolvers {";
            "      "
            ++ renderInputArgInterfaces (OfInterface type) (args_modelMap args)
                                        interfacesMap unionsMap;
            "";
            "      export interface Type {";
            "        "
            ++ printMember
                 (mkMember "__resolveType" false
                           (resolveTypeSignature (implementors type) args));
            "      }";
            "    }";
            "  " ])
  /\ (forall (type : GraphQLUnionObject) (args : GenerateArgs),
         renderUnionNamespace type args
         = lines
             [ "    export namespace " ++ uni_name type ++ "Resolvers {";
               "      export interface Type {";
               "        "
               ++ printMember
                    (mkMember "__resolveType" true
                              (resolveTypeSignature (types type) args));
               "      }";
               "    }";
               "  " ])
  /\ (forall signature signature',
         printMember (mkMember "__resolveType" false signature)
         <> printMember (mkMember "__resolveType" true signature')).
Proof.
  split; [| split].
  - intros. reflexivity.
  - intros. reflexivity.
  - intros. apply optional_member_differs.
Qed.

End AbstractTypes.

(** ** Field resolvers *)

Section FieldResolvers.
Context {X : Externals}.


Lemma arguments_nonempty (field : GraphQLTypeField) :
  (0 <? List.length (arguments field))%nat
  = match arguments field with [] => false | _ => true end.
Proof. now destruct (arguments field). Qed.


(** [renderTypeResolver] throws only on an [isInterface] type that the
    interfaces map does not know. *)
Lemma renderTypeResolver_total
    (field : GraphQLTypeField) (type : ObjectOrInterface) modelMap interfacesMap
    unionsMap context :
  isInterface (oi_type type) = false
  \/ (exists impls, JsObj.get (oi_name type) interfacesMap = Some impls) ->
  exists out,
    renderTypeResolver field type modelMap interfacesMap unionsMap context = Ok out.
Proof.
  unfold renderTypeResolver. intros [Hobj | [impls Hget]].
  - rewrite Hobj. simpl. destruct (oi_name type =? "Subscription"); eauto.
  - rewrite Hget. destruct (isInterface (oi_type type)); simpl;
      destruct (oi_name type =? "Subscription"); eauto.
Qed.



End FieldResolvers.



Section SubscriptionByName.
Context {X : Externals}.

(** The texts [renderTypeResolver] assembles are the ones written out. *)
Lemma subscriptionResolver_text (parent argsType ctx returnType : string) :
  subscriptionResolver (resolverParams parent argsType ctx) returnType
  = subscriptionRecordText (signatureText parent argsType ctx) returnType.
Proof. reflexivity. Qed.

Lemma functionOrDelegatedResolver_text (parent argsType ctx returnType : string) :
  functionOrDelegatedResolver (resolverParams parent argsType ctx) returnType
  = functionOrDelegatedText (signatureText parent argsType ctx) returnType.
Proof. reflexivity. Qed.

(** The record starts with a line feed, the choice with a parenthesis. *)
Lemma texts_disjoint (out : string) :
  isSubscriptionRecordText out -> isFunctionOrDelegatedText out -> False.
Proof.
  intros [p [a [c [r Hs]]]] [p' [a' [c' [r' Hf]]]]. subst out.
  unfold subscriptionRecordText, functionOrDelegatedText, lines, join in Hf.
  simpl in Hf. discriminate Hf.
Qed.

(** What [renderTypeResolver] returns for an owning type that needs no
    lookup, written out. *)
Lemma renderTypeResolver_text
    (field : GraphQLTypeField) (type : ObjectOrInterface) modelMap interfacesMap
    unionsMap context (out : string) :
  renderTypeResolver field type modelMap interfacesMap unionsMap context = Ok out ->
  exists parent,
    (isInterface (oi_type type) = false ->
     parent = getModelName (oi_type type) modelMap (Some "undefined"))
    /\ out
       = (if oi_name type =? "Subscription"
          then subscriptionRecordText
          else functionOrDelegatedText)
           (signatureText parent
                          (match arguments field with
                           | [] => "{}"
                           | _ => "Args" ++ upperFirst (field_name field)
                           end)
                          (getContextName context))
           (printFieldLikeType (FieldOf field) modelMap interfacesMap unionsMap
                               (Some (mkPrintOptions true))).
Proof.
  unfold renderTypeResolver. intros H.
  match type of H with
  | bind ?r _ = _ => destruct r as [parent | e] eqn:Hparent; simpl in H;
                     [| discriminate H]
  end.
  exists parent. split.
  - intros Hobj. rewrite Hobj in Hparent. now injection Hparent as <-.
  - rewrite arguments_nonempty in H.
    destruct (oi_name type =? "Subscription"), (arguments field);
      injection H as <-;
      first [apply subscriptionResolver_text | apply functionOrDelegatedResolver_text].
Qed.

(** C9.  Whether a field gets the subscription record depends on the name
    of its owning type alone.  When [renderTypeResolver] returns, its text is
    the record of a mandatory [subscribe] and an optional [resolve] if and
    only if the type, object or interface, is named [Subscription], and the
    function-or-delegated choice if and only if it is not.  The
    root-subscription flag does not enter: an object type gets the text that
    its name and model determine, an interface named [Subscription] gets the
    record, and an object type flagged as root subscription type under
    another name gets the choice. *)
Theorem subscription_shape_iff_named_Subscription :
  (forall field type modelMap interfacesMap unionsMap context out,
      renderTypeResolver field type modelMap interfacesMap unionsMap context = Ok out ->
      (isSubscriptionRecordText out <-> oi_name type = "Subscription")
      /\ (isFunctionOrDelegatedText out <-> oi_name type <> "Subscription"))
  /\ (forall field (type : GraphQLTypeObject) modelMap interfacesMap unionsMap context,
         isInterface (obj_type type) = false ->
         renderTypeResolver field (OfObject type) modelMap interfacesMap unionsMap context
         = Ok ((if obj_name type =? "Subscription"
                then subscriptionRecordText
                else functionOrDelegatedText)
                 (signatureText (getModelName (obj_type type) modelMap (Some "undefined"))
                                (match arguments field with
                                 | [] => "{}"
                                 | _ => "Args" ++ upperFirst (field_name field)
                                 end)
                                (getContextName context))
                 (printFieldLikeType (FieldOf field) modelMap interfacesMap unionsMap
                                     (Some (mkPrintOptions true)))))
  /\ (forall field (type : GraphQLInterfaceObject) modelMap interfacesMap unionsMap
             context impls,
         itf_name type = "Subscription" ->
         JsObj.get "Subscription" interfacesMap = Some impls ->
         exists parent,
           renderTypeResolver field (OfInterface type) modelMap interfacesMap
                              unionsMap context
           = Ok (subscriptionRecordText
                   (signatureText parent
                                  (match arguments field with
                                   | [] => "{}"
                                   | _ => "Args" ++ upperFirst (field_name field)
                                   end)
                                  (getContextName context))
                   (printFieldLikeType (FieldOf field) modelMap interfacesMap unionsMap
                                       (Some (mkPrintOptions true)))))
  /\ (forall field (type : GraphQLTypeObject) modelMap interfacesMap unionsMap context,
         isSubscriptionRoot type = true ->
         obj_name type <> "Subscription" ->
         isInterface (obj_type type) = false ->
         exists out,
           renderTypeResolver field (OfObject type) modelMap interfacesMap
                              unionsMap context = Ok out
           /\ isFunctionOrDelegatedText out /\ ~ isSubscriptionRecordText out).
Proof.
  assert (Hshape :
            forall field type modelMap interfacesMap unionsMap context out,
              renderTypeResolver field type modelMap interfacesMap unionsMap context
              = Ok out ->
              if oi_name type =? "Subscription"
              then isSubscriptionRecordText out /\ ~ isFunctionOrDelegatedText out
              else isFunctionOrDelegatedText out /\ ~ isSubscriptionRecordText out).
  { intros field type modelMap interfacesMap unionsMap context out H.
    apply renderTypeResolver_text in H. destruct H as [parent [_ H]].
    destruct (oi_name type =? "Subscription").
    - assert (Hs : isSubscriptionRecordText out)
        by (subst out; do 4 eexists; reflexivity).
      split; [exact Hs |]. intros Hf. exact (texts_disjoint out Hs Hf).
    - assert (Hf : isFunctionOrDelegatedText out)
        by (subst out; do 4 eexists; reflexivity).
      split; [exact Hf |]. intros Hs. exact (texts_disjoint out Hs Hf). }
  assert (Hobject :
            forall field (type : GraphQLTypeObject) modelMap interfacesMap unionsMap
                   context,
              isInterface (obj_type type) = false ->
              renderTypeResolver field (OfObject type) modelMap interfacesMap unionsMap
                                 context
              = Ok ((if obj_name type =? "Subscription"
                     then subscriptionRecordText
                     else functionOrDelegatedText)
                      (signatureText
                         (getModelName (obj_type type) modelMap (Some "undefined"))
                         (match arguments field with
                          | [] => "{}"
                          | _ => "Args" ++ upperFirst (field_name field)
                          end)
                         (getContextName context))
                      (printFieldLikeType (FieldOf field) modelMap interfacesMap
                                          unionsMap (Some (mkPrintOptions true))))).
  { intros field type modelMap interfacesMap unionsMap context Hobj.
    destruct (renderTypeResolver_total field (OfObject type) modelMap interfacesMap
                unionsMap context (or_introl Hobj)) as [out Hout].
    rewrite Hout. apply renderTypeResolver_text in Hout.
    destruct Hout as [parent [Hparent Hout]]. simpl in Hparent, Hout.
    now rewrite Hout, (Hparent Hobj). }
  split; [| split; [| split]].
  - intros field type modelMap interfacesMap unionsMap context out H.
    apply Hshape in H.
    destruct (String.eqb_spec (oi_name type) "Subscription") as [Hname | Hname];
      destruct H as [Hyes Hno]; split; split; intros; tauto.
  - exact Hobject.
  - intros field type modelMap interfacesMap unionsMap context impls Hname Hget.
    destruct (renderTypeResolver_total field (OfInterface type) modelMap
                interfacesMap unionsMap context) as [out Hout].
    { right. exists impls. simpl. now rewrite Hname. }
    rewrite Hout. apply renderTypeResolver_text in Hout.
    destruct Hout as [parent [_ Hout]]. simpl in Hout. rewrite Hname in Hout.
    simpl in Hout. exists parent. now rewrite Hout.
  - intros field type modelMap interfacesMap unionsMap context _ Hname Hobj.
    eexists. split; [apply Hobject; exact Hobj |].
    apply String.eqb_neq in Hname. rewrite Hname. split.
    + do 4 eexists. reflexivity.
    + intros Hs. apply (texts_disjoint _ Hs). do 4 eexists. reflexivity.
Qed.

End SubscriptionByName.

Lemma subscription_shape_iff_named_Subscription_witness :
  (exists parent,
      renderTypeResolver (X := Sample.externals) Sample.tick
                         (OfInterface Sample.SubscriptionInterface) []
                         [("Subscription", [Sample.objectRef "Events"])] [] None
      = Ok (subscriptionRecordText (X := Sample.externals)
              (signatureText parent "{}" "Context") "Int"))
  /\ (exists out,
         renderTypeResolver (X := Sample.externals) Sample.tick
                            (OfObject Sample.Events) [] [] [] None = Ok out
         /\ isFunctionOrDelegatedText (X := Sample.externals) out
         /\ ~ isSubscriptionRecordText (X := Sample.externals) out)
  /\ isSubscriptionRecordText (X := Sample.externals)
       (subscriptionRecordText (X := Sample.externals)
          (signatureText "undefined" "{}" "Context") "Int").
Proof.
  destruct (subscription_shape_iff_named_Subscription (X := Sample.externals))
    as [Hiff [_ [Hitf Hobj]]].
  split; [| split].
  - apply (Hitf Sample.tick Sample.SubscriptionInterface [] _ [] None
                [Sample.objectRef "Events"]); reflexivity.
  - apply (Hobj Sample.tick Sample.Events [] [] [] None); [reflexivity | | reflexivity].
    discriminate.
  - apply (Hiff Sample.tick (OfObject Sample.SubscriptionObject) [] [] [] None _ eq_refl).
    reflexivity.
Defined.

(** ** Argument records *)

Section ArgumentRecords.
Context {X : Externals}.

Lemma renderInputArgInterface_cases
    (field : GraphQLTypeField) modelMap interfacesMap unionsMap :
  renderInputArgInterface field modelMap interfacesMap unionsMap
  = match arguments field with
    | [] => ""
    | _ => argsRecordDeclaration field modelMap interfacesMap unionsMap
    end.
Proof.
  unfold renderInputArgInterface, argsRecordDeclaration, argsRecordName.
  destruct (arguments field); reflexivity.
Qed.

Lemma argsRecordDeclaration_not_empty
    (field : GraphQLTypeField) modelMap interfacesMap unionsMap :
  argsRecordDeclaration field modelMap interfacesMap unionsMap <> "".
Proof.
  unfold argsRecordDeclaration, lines, join. simpl. discriminate.
Qed.

Lemma append_assoc_text (a b c : string) : (a ++ b) ++ c = a ++ (b ++ c).
Proof.
  induction a as [|x a IH]; simpl; [reflexivity | now rewrite IH].
Qed.

Lemma signatureText_args (parent ctx argsType argsType' : string) :
  signatureText parent argsType ctx = signatureText parent argsType' ctx ->
  argsType = argsType'.
Proof.
  unfold signatureText, lines, join. simpl. intros H.
  repeat match type of H with String _ _ = String _ _ => injection H as H end.
  apply append_inv_head in H. simpl in H.
  repeat match type of H with String _ _ = String _ _ => injection H as H end.
  rewrite !append_assoc_text in H.
  assert (Hlen : String.length argsType = String.length argsType').
  { apply (f_equal String.length) in H. rewrite !length_append in H. lia. }
  now apply append_inj_length in H.
Qed.

(** C5.  The argument record [Args<FieldName>] of a field is declared if
    and only if the field has arguments.  A field without arguments
    contributes the empty text to the argument records of its type, and the
    parameter list of its resolver reads [args: {}]; a field with arguments
    contributes the declaration of [Args<FieldName>], and the parameter list
    of its resolver reads [args: Args<FieldName>], a different text. *)
Theorem argument_record_iff_arguments
    (field : GraphQLTypeField) modelMap interfacesMap unionsMap :
  (arguments field = [] ->
   renderInputArgInterface field modelMap interfacesMap unionsMap = ""
   /\ forall type context out,
       renderTypeResolver field type modelMap interfacesMap unionsMap context = Ok out ->
       exists parent,
         out = (if oi_name type =? "Subscription"
                then subscriptionRecordText
                else functionOrDelegatedText)
                 (lines
                    [ "";
                      "  (";
                      "    parent: " ++ parent ++ ",";
                      "    args: {},";
                      "    ctx: " ++ getContextName context ++ ",";
                      "    info: GraphQLResolveInfo,";
                      "  )";
                      "  " ])
                 (printFieldLikeType (FieldOf field) modelMap interfacesMap unionsMap
                                     (Some (mkPrintOptions true))))
  /\ (arguments field <> [] ->
      renderInputArgInterface field modelMap interfacesMap unionsMap
      = argsRecordDeclaration field modelMap interfacesMap unionsMap
      /\ forall type context out,
          renderTypeResolver field type modelMap interfacesMap unionsMap context = Ok out ->
          exists parent,
            out = (if oi_name type =? "Subscription"
                   then subscriptionRecordText
                   else functionOrDelegatedText)
                    (lines
                       [ "";
                         "  (";
                         "    parent: " ++ parent ++ ",";
                         "    args: Args" ++ upperFirst (field_name field) ++ ",";
                         "    ctx: " ++ getContextName context ++ ",";
                         "    info: GraphQLResolveInfo,";
                         "  )";
                         "  " ])
                    (printFieldLikeType (FieldOf field) modelMap interfacesMap unionsMap
                                        (Some (mkPrintOptions true))))
  /\ (renderInputArgInterface field modelMap interfacesMap unionsMap = ""
      <-> arguments field = [])
  /\ (forall parent ctx,
         signatureText parent "{}" ctx
         <> signatureText parent ("Args" ++ upperFirst (field_name field)) ctx)
  /\ (forall type : ObjectOrInterface,
         In field (oi_fields type) ->
         exists before after,
           oi_fields type = (before ++ field :: after)%list
           /\ renderInputArgInterfaces type modelMap interfacesMap unionsMap
              = join EOL
                  (map (fun f => renderInputArgInterface f modelMap interfacesMap unionsMap)
                       before
                   ++ match arguments field with
                      | [] => ""
                      | _ => argsRecordDeclaration field modelMap interfacesMap unionsMap
                      end
                      :: map (fun f =>
                                renderInputArgInterface f modelMap interfacesMap unionsMap)
                             after)).
Proof.
  pose proof (renderInputArgInterface_cases field modelMap interfacesMap unionsMap)
    as Hcases.
  split; [| split; [| split; [| split]]].
  - intros Hnone. rewrite Hnone in Hcases. split; [exact Hcases |].
    intros type context out Hout.
    apply renderTypeResolver_text in Hout. destruct Hout as [parent [_ Hout]].
    rewrite Hnone in Hout. exists parent. exact Hout.
  - intros Hsome.
    destruct (arguments field) as [|arg rest] eqn:Hargs; [congruence |].
    split; [exact Hcases |].
    intros type context out Hout.
    apply renderTypeResolver_text in Hout. destruct Hout as [parent [_ Hout]].
    rewrite Hargs in Hout. exists parent. exact Hout.
  - rewrite Hcases. destruct (arguments field); split; intros H; try reflexivity.
    + now apply argsRecordDeclaration_not_empty in H.
    + discriminate H.
  - intros parent ctx H. apply signatureText_args in H. discriminate H.
  - intros type Hin. apply in_split in Hin. destruct Hin as [before [after Hsplit]].
    exists before, after. split; [exact Hsplit |].
    unfold renderInputArgInterfaces. rewrite Hsplit, map_app. simpl.
    now rewrite Hcases.
Qed.

End ArgumentRecords.

Lemma argument_record_iff_arguments_witness :
  renderInputArgInterface (X := Sample.externals) Sample.title [] [] [] = ""
  /\ renderInputArgInterface (X := Sample.externals) Sample.posts [] [] []
     = argsRecordDeclaration (X := Sample.externals) Sample.posts [] [] []
  /\ (exists parent,
         renderTypeResolver (X := Sample.externals) Sample.title
                            (OfObject Sample.Blog) [] [] [] None
         = Ok (functionOrDelegatedText (X := Sample.externals)
                 (signatureText parent "{}" "Context") "String"))
  /\ (exists parent,
         renderTypeResolver (X := Sample.externals) Sample.posts
                            (OfObject Sample.Blog) [] [] [] None
         = Ok (functionOrDelegatedText (X := Sample.externals)
                 (signatureText parent "ArgsPosts" "Context") "String")).
Proof.
  destruct (argument_record_iff_arguments (X := Sample.externals) Sample.title [] [] [])
    as [Hnone _].
  destruct (argument_record_iff_arguments (X := Sample.externals) Sample.posts [] [] [])
    as [_ [Hsome _]].
  destruct (Hnone eq_refl) as [Hempty Htitle].
  assert (Hargs : arguments Sample.posts <> []) by discriminate.
  destruct (Hsome Hargs) as [Hdecl Hposts].
  split; [exact Hempty |]. split; [exact Hdecl |]. split.
  - destruct (Htitle (OfObject Sample.Blog) None _ eq_refl) as [parent Hout].
    exists parent. exact (f_equal Ok Hout).
  - destruct (Hposts (OfObject Sample.Blog) None _ eq_refl) as [parent Hout].
    exists parent. exact (f_equal Ok Hout).
Defined.

(** ** [__isTypeOf] *)

Section IsTypeOf.
Context {X : Externals}.

Lemma get_Some_in_keys {V : Type} (k : string) (o : JsObj.t V) (v : V) :
  JsObj.get k o = Some v -> In k (JsObj.keys o).
Proof.
  induction o as [|[k' v'] o IH]; simpl; [discriminate |].
  destruct (String.eqb_spec k' k) as [-> | _]; [now left |].
  intros H. right. now apply IH.
Qed.

(** The loop over the unions leaves the members of the union enumerated
    last among those that list the type, or the initial list if none
    does. *)
Lemma unionPossibleTypes_last
    (typeName : string) (unionsMap : UnionsMap) (initial : list GraphQLType) :
  unionPossibleTypes typeName unionsMap initial
  = match lastListingUnion typeName unionsMap with
    | Some members => members
    | None => initial
    end.
Proof.
  unfold unionPossibleTypes, lastListingUnion.
  induction (JsObj.keys unionsMap) as [|unionName names IH] using rev_ind;
    [reflexivity |].
  rewrite fold_left_app, rev_app_distr. simpl.
  unfold listsType at 1.
  destruct (JsObj.get unionName unionsMap) as [members |] eqn:Hget.
  - destruct (existsb _ members); [now rewrite Hget | exact IH].
  - exact IH.
Qed.

Lemma lastListingUnion_lists
    (typeName : string) (unionsMap : UnionsMap) (members : list GraphQLType) :
  lastListingUnion typeName unionsMap = Some members ->
  existsb (fun unionType => type_name unionType =? typeName) members = true.
Proof.
  unfold lastListingUnion.
  destruct (find _ _) as [unionName |] eqn:Hfind; [| discriminate].
  apply find_some in Hfind. destruct Hfind as [_ Hlists].
  unfold listsType in Hlists. intros Hget. now rewrite Hget in Hlists.
Qed.

Lemma listed_has_last
    (typeName : string) (unionsMap : UnionsMap) (unionName : string)
    (members : list GraphQLType) :
  JsObj.get unionName unionsMap = Some members ->
  existsb (fun unionType => type_name unionType =? typeName) members = true ->
  exists last, lastListingUnion typeName unionsMap = Some last.
Proof.
  intros Hget Hlists. unfold lastListingUnion.
  destruct (find _ _) as [k |] eqn:Hfind.
  - apply find_some in Hfind. destruct Hfind as [_ Hk].
    unfold listsType in Hk.
    destruct (JsObj.get k unionsMap) as [last |]; [now exists last | discriminate].
  - exfalso.
    assert (Hin : In unionName (rev (JsObj.keys unionsMap))).
    { apply -> in_rev. eapply get_Some_in_keys; eassumption. }
    pose proof (find_none _ _ Hfind _ Hin) as Hno.
    unfold listsType in Hno. rewrite Hget in Hno. congruence.
Qed.

(** C10.  For an object type that implements interfaces and is listed by
    some union, [__isTypeOf] is built from the members of the union
    enumerated last among those that list the type, and from nothing else:
    the member returned is the one the same type would get without its
    [implements] list. *)
Theorem union_membership_replaces_interface_implementors
    (type : GraphQLTypeObject) modelMap interfacesMap unionsMap context
    (interfaceNames : list string) (implementing : list GraphQLType)
    (unionName : string) (listing : list GraphQLType) :
  isInterface (obj_type type) = false ->
  implements type = Some interfaceNames ->
  interfacePossibleTypes interfaceNames interfacesMap = Ok implementing ->
  JsObj.get unionName unionsMap = Some listing ->
  existsb (fun unionType => type_name unionType =? obj_name type) listing = true ->
  exists members,
    lastListingUnion (obj_name type) unionsMap = Some members
    /\ renderIsTypeOfFunctionInterface (OfObject type) modelMap interfacesMap
                                       unionsMap context
       = Ok ("    __isTypeOf?: GraphQLIsTypeOfFn<"
             ++ join " | "
                  (map (fun member => getModelName member modelMap None) members)
             ++ ", " ++ getContextName context ++ ">;")
    /\ renderIsTypeOfFunctionInterface (OfObject type) modelMap interfacesMap
                                       unionsMap context
       = renderIsTypeOfFunctionInterface
           (OfObject (mkObject (obj_name type) (obj_type type) (obj_fields type)
                               None (isSubscriptionRoot type)))
           modelMap interfacesMap unionsMap context.
Proof.
  intros Hobj Himpl Hitf Hget Hlists.
  destruct (listed_has_last _ _ _ _ Hget Hlists) as [members Hlast].
  exists members. split; [exact Hlast |].
  pose proof (lastListingUnion_lists _ _ _ Hlast) as Hmem.
  assert (Hlen : (List.length members =? 0)%nat = false).
  { destruct members; [discriminate Hmem | reflexivity]. }
  unfold renderIsTypeOfFunctionInterface. simpl.
  rewrite Hobj, Himpl, Hitf. simpl.
  rewrite !unionPossibleTypes_last, Hlast, Hlen. split; reflexivity.
Qed.

End IsTypeOf.

Lemma union_membership_replaces_interface_implementors_witness :
  renderIsTypeOfFunctionInterface (X := Sample.externals) (OfObject Sample.Cat)
    Sample.petModels Sample.petInterfaces Sample.petUnions None
  = renderIsTypeOfFunctionInterface (X := Sample.externals) (OfObject Sample.Fish)
      Sample.petModels Sample.petInterfaces Sample.petUnions None.
Proof.
  destruct (union_membership_replaces_interface_implementors (X := Sample.externals)
              Sample.Cat Sample.petModels Sample.petInterfaces Sample.petUnions None
              ["Animal"] [Sample.objectRef "Cat"; Sample.objectRef "Dog"]
              "Pet" [Sample.objectRef "Cat"; Sample.objectRef "Fish"]
              eq_refl eq_refl eq_refl eq_refl eq_refl)
    as [members [Hlast [Hout _]]].
  rewrite Hout. cbv in Hlast. injection Hlast as <-. reflexivity.
Defined.

(** C6 at [Cat], which implements [Animal] (implementors [Cat], [Dog]) and is
    a member of [Pet] (members [Cat], [Fish]): [Dog] is one of the concrete
    types [Cat] can stand among, and the candidate value of [__isTypeOf]
    leaves its model out. *)
Lemma isTypeOf_leaves_out_interface_implementors :
  possibleConcreteType Sample.Cat Sample.petInterfaces Sample.petUnions
                       (Sample.objectRef "Dog")
  /\ renderIsTypeOfFunctionInterface (X := Sample.externals) (OfObject Sample.Cat)
       Sample.petModels Sample.petInterfaces Sample.petUnions None
     = Ok "    __isTypeOf?: GraphQLIsTypeOfFn<CatModel | FishModel, Context>;"
  /\ interfacePossibleTypes ["Animal"] Sample.petInterfaces
     = Ok [Sample.objectRef "Cat"; Sample.objectRef "Dog"]
  /\ unionPossibleTypes "Cat" Sample.petUnions
                        [Sample.objectRef "Cat"; Sample.objectRef "Dog"]
     = [Sample.objectRef "Cat"; Sample.objectRef "Fish"].
Proof.
  split; [| repeat split].
  left. exists ["Animal"], "Animal", [Sample.objectRef "Cat"; Sample.objectRef "Dog"].
  repeat split; simpl; tauto.
Qed.

(** ** Input types of an object type *)

Section InputTypes.
Context {X : Externals}.

Lemma nonempty_of_In {A : Type} (x : A) (l : list A) :
  In x l -> (0 <? List.length l)%nat = true.
Proof. destruct l; [intros [] | reflexivity]. Qed.

Lemma inputArgumentNames_In (type : GraphQLTypeObject) (inputName : string) :
  In inputName (List.concat (map inputArgumentNames (obj_fields type)))
  <-> directlyReferenced type inputName.
Proof.
  unfold directlyReferenced, inputArgumentNames. rewrite in_concat. split.
  - intros [names [Hnames Hin]].
    apply in_map_iff in Hnames. destruct Hnames as [field [<- Hfield]].
    apply in_map_iff in Hin. destruct Hin as [arg [Hname Harg]].
    apply filter_In in Harg. destruct Harg as [Harg Hinput].
    now exists field, arg.
  - intros [field [arg [Hfield [Harg [Hinput Hname]]]]].
    eexists. split.
    + apply in_map_iff. exists field. split; [reflexivity | exact Hfield].
    + apply in_map_iff. exists arg. split; [exact Hname |].
      apply filter_In. now split.
Qed.

Lemma directlyReferenced_hasInputArguments
    (type : GraphQLTypeObject) (inputName : string) :
  directlyReferenced type inputName -> hasInputArguments type = true.
Proof.
  intros [field [arg [Hfield [Harg [Hinput _]]]]].
  unfold hasInputArguments. apply (nonempty_of_In field).
  apply filter_In. split; [exact Hfield |].
  apply (nonempty_of_In arg). apply filter_In. now split.
Qed.

(** The association of an object type that is the only object type of its
    name: the input types its arguments name, if there is any. *)
Lemma typeToInputTypeAssociationOf_get (args : GenerateArgs) (type : GraphQLTypeObject) :
  In type (args_types args) ->
  isObject (obj_type type) = true ->
  (forall other,
      In other (args_types args) -> isObject (obj_type other) = true ->
      obj_name other = obj_name type -> other = type) ->
  JsObj.get (obj_name type) (typeToInputTypeAssociationOf args)
  = if hasInputArguments type
    then Some (List.concat (map inputArgumentNames (obj_fields type)))
    else None.
Proof.
  intros Hin Hobj Honly. unfold typeToInputTypeAssociationOf.
  destruct (hasInputArguments type) eqn:Hhas.
  - apply get_reduce_same
      with (val := fun t => List.concat (map inputArgumentNames (obj_fields t))).
    + exists type. split; [| reflexivity]. apply filter_In. split; [exact Hin |].
      fold (hasInputArguments type). now rewrite Hobj, Hhas.
    + intros other Hother Hname. apply filter_In in Hother.
      destruct Hother as [Hother Hcond]. apply andb_true_iff in Hcond.
      now rewrite (Honly other Hother (proj1 Hcond) Hname).
  - rewrite get_reduce_other
      with (val := fun t => List.concat (map inputArgumentNames (obj_fields t)));
      [reflexivity |].
    intros other Hother Hname. apply filter_In in Hother.
    destruct Hother as [Hother Hcond]. apply andb_true_iff in Hcond.
    destruct Hcond as [Hobj' Hhas'].
    rewrite (Honly other Hother Hobj' Hname) in Hhas'.
    fold (hasInputArguments type) in Hhas'. congruence.
Qed.

(** A registered input type is bound, under its name, to an input type of
    that name. *)
Lemma inputTypesMapOf_get (args : GenerateArgs) (inputName : string) :
  (exists input,
      In input (args_types args) /\ isInput (obj_type input) = true
      /\ obj_name input = inputName) ->
  exists input,
    JsObj.get inputName (inputTypesMapOf args) = Some input
    /\ obj_name input = inputName.
Proof.
  intros [input [Hin [Hinput Hname]]]. unfold inputTypesMapOf.
  destruct (get_reduce_some obj_name (fun t => t)
              (filter (fun type => isInput (obj_type type)) (args_types args))
              JsObj.empty inputName) as [found [_ [Hfound Hget]]].
  - exists input. split; [| exact Hname]. apply filter_In. now split.
  - now exists found.
Qed.

Lemma mapR_renderInputTypeInterface
    modelMap interfacesMap unionsMap (inputTypesMap : InputTypesMap)
    (names : list string) :
  (forall inputName,
      In inputName names ->
      exists input,
        JsObj.get inputName inputTypesMap = Some input /\ obj_name input = inputName) ->
  mapR (renderInputTypeInterface modelMap interfacesMap unionsMap inputTypesMap) names
  = Ok (map (inputTypeDeclaration modelMap interfacesMap unionsMap inputTypesMap) names).
Proof.
  induction names as [|inputName names IH]; intros Hreg; [reflexivity |].
  simpl. rewrite IH by (intros n Hn; apply Hreg; now right).
  destruct (Hreg inputName (or_introl eq_refl)) as [input [Hget Hname]].
  unfold renderInputTypeInterface, inputTypeDeclaration.
  rewrite (read_own _ _ _ Hget), Hget, Hname. reflexivity.
Qed.

(** For an object type of the graph (the only object type of its name, every
    input type its arguments name being registered in the graph) that takes
    an argument of an input type or whose name is not a property of
    [Object.prototype], the input-type declarations of its group are those of
    the input types that the arguments of its fields reference directly: one
    declaration for each of them, none repeated, and no other. *)
Lemma input_type_declarations_are_direct_references
    (args : GenerateArgs) (type : GraphQLTypeObject) modelMap interfacesMap unionsMap :
  In type (args_types args) ->
  isObject (obj_type type) = true ->
  (forall other,
      In other (args_types args) -> isObject (obj_type other) = true ->
      obj_name other = obj_name type -> other = type) ->
  (forall inputName,
      directlyReferenced type inputName ->
      exists input,
        In input (args_types args) /\ isInput (obj_type input) = true
        /\ obj_name input = inputName) ->
  (hasInputArguments type = false -> JsObj.inherited (obj_name type) = false) ->
  exists names,
    NoDup names
    /\ (forall inputName, In inputName names <-> directlyReferenced type inputName)
    /\ renderInputTypeInterfaces type modelMap interfacesMap unionsMap
                                 (typeToInputTypeAssociationOf args)
                                 (inputTypesMapOf args)
       = Ok (join EOL
               (map (inputTypeDeclaration modelMap interfacesMap unionsMap
                                          (inputTypesMapOf args))
                    names)).
Proof.
  intros Hin Hobj Honly Hreg Hname.
  pose proof (typeToInputTypeAssociationOf_get args type Hin Hobj Honly) as Hassoc.
  unfold renderInputTypeInterfaces, getDistinctInputTypes.
  destruct (hasInputArguments type) eqn:Hhas.
  - rewrite (read_own _ _ _ Hassoc), Hassoc.
    exists (distinct (List.concat (map inputArgumentNames (obj_fields type)))).
    assert (Hiff : forall inputName,
               In inputName
                  (distinct (List.concat (map inputArgumentNames (obj_fields type))))
               <-> directlyReferenced type inputName).
    { intros inputName. rewrite distinct_In. apply inputArgumentNames_In. }
    split; [apply distinct_NoDup |]. split; [exact Hiff |].
    simpl. rewrite mapR_renderInputTypeInterface; [reflexivity |].
    intros inputName Hinput. apply inputTypesMapOf_get. apply Hreg.
    now apply Hiff.
  - rewrite (read_not_own _ _ Hassoc), (Hname eq_refl).
    exists []. split; [constructor |].
    assert (Hiff : forall inputName, In inputName [] <-> directlyReferenced type inputName).
    { intros inputName. split; [intros [] |]. intros Href.
      apply directlyReferenced_hasInputArguments in Href. congruence. }
    split; [exact Hiff | reflexivity].
Qed.


End InputTypes.

Lemma input_type_declarations_are_direct_references_witness :
  exists names,
    NoDup names
    /\ (forall inputName, In inputName names <-> directlyReferenced Sample.Blog inputName)
    /\ renderInputTypeInterfaces (X := Sample.externals) Sample.Blog [] [] []
         (typeToInputTypeAssociationOf Sample.blogArgs) (inputTypesMapOf Sample.blogArgs)
       = Ok (join nl
               (map (inputTypeDeclaration (X := Sample.externals) [] [] []
                                          (inputTypesMapOf Sample.blogArgs))
                    names)).
Proof.
  apply (input_type_declarations_are_direct_references (X := Sample.externals)
           Sample.blogArgs Sample.Blog [] [] []).
  - simpl. tauto.
  - reflexivity.
  - simpl. intros other [<- | [<- | [<- | [<- | []]]]] Hobj Hname;
      first [reflexivity | discriminate].
  - intros inputName [field [arg [Hfield [Harg [Hinput Hname]]]]].
    simpl in Hfield. destruct Hfield as [<- | [<- | []]]; simpl in Harg.
    + destruct Harg as [<- | [<- | [<- | [<- | []]]]]; simpl in Hinput, Hname;
        try discriminate Hinput; subst inputName.
      * exists Sample.PostFilter. simpl. tauto.
      * exists Sample.PostFilter. simpl. tauto.
      * exists Sample.Page. simpl. tauto.
    + destruct Harg.
  - discriminate.
Defined.


(** * Further properties of the generator *)

(** ** Maps that may throw *)

Lemma mapR_Ok {A B : Type} (f : A -> Result B) (xs : list A) :
  (forall x, In x xs -> exists y, f x = Ok y) -> exists ys, mapR f xs = Ok ys.
Proof.
  induction xs as [|x xs IH]; intros Hall; simpl; [now exists [] |].
  destruct (Hall x (or_introl eq_refl)) as [y Hy]. rewrite Hy. simpl.
  destruct IH as [ys Hys]; [intros x' Hx'; apply Hall; now right |].
  rewrite Hys. simpl. now exists (y :: ys).
Qed.

Lemma mapR_Throw {A B : Type} (f : A -> Result B) (xs : list A) (x : A) (e : JsError) :
  In x xs -> f x = Throw e -> exists e', mapR f xs = Throw e'.
Proof.
  induction xs as [|x' xs IH]; intros Hin Hx; [destruct Hin |]. simpl.
  destruct (f x') as [y | e'] eqn:Hx'; simpl; [| now exists e'].
  destruct Hin as [-> | Hin]; [congruence |].
  destruct (IH Hin Hx) as [e' He']. rewrite He'. simpl. now exists e'.
Qed.

(** A map whose body post-processes a result maps the results first. *)
Lemma mapR_post {A B C : Type} (f : A -> Result B) (g : A * B -> C) (xs : list A) :
  mapR (fun x => y <- f x ;; Ok (g (x, y))) xs
  = (ys <- mapR f xs ;; Ok (map g (combine xs ys))).
Proof.
  induction xs as [|x xs IH]; simpl; [reflexivity |].
  destruct (f x) as [y | e]; simpl; [| reflexivity].
  rewrite IH. destruct (mapR f xs) as [ys | e]; reflexivity.
Qed.

(** ** Keys of a dictionary *)

Lemma keys_set {V : Type} (k : string) (v : V) (o : JsObj.t V) :
  JsObj.keys (JsObj.set k v o)
  = if in_dec string_dec k (JsObj.keys o) then JsObj.keys o
    else (JsObj.keys o ++ [k])%list.
Proof.
  unfold JsObj.keys. induction o as [|[k' v'] o IH]; [reflexivity |].
  cbn [JsObj.set map fst].
  destruct (String.eqb_spec k' k) as [Heq | Hne]; cbn [map fst].
  - subst k'. destruct (in_dec string_dec k (k :: map fst o)) as [Hin | Hnot];
      [reflexivity |]. exfalso. apply Hnot. now left.
  - rewrite IH.
    destruct (in_dec string_dec k (map fst o)) as [Hin | Hnot];
      destruct (in_dec string_dec k (k' :: map fst o)) as [Hin' | Hnot'];
      try reflexivity.
    + exfalso. apply Hnot'. now right.
    + exfalso. destruct Hin' as [Heq | Hin']; [congruence | contradiction].
Qed.

Lemma keys_set_NoDup {V : Type} (k : string) (v : V) (o : JsObj.t V) :
  NoDup (JsObj.keys o) -> NoDup (JsObj.keys (JsObj.set k v o)).
Proof.
  intros Hnodup. rewrite keys_set.
  destruct (in_dec string_dec k (JsObj.keys o)) as [_ | Hnot]; [exact Hnodup |].
  apply NoDup_app; [exact Hnodup | repeat constructor; intros [] |].
  intros k' Hin [<- | []]. contradiction.
Qed.

Lemma keys_reduce_NoDup {T V : Type} (key : T -> string) (val : T -> V)
    (l : list T) (o : JsObj.t V) :
  NoDup (JsObj.keys o) ->
  NoDup (JsObj.keys (fold_left (fun m t => JsObj.set (key t) (val t) m) l o)).
Proof.
  revert o. induction l as [|t l IH]; intros o Hnodup; simpl; [exact Hnodup |].
  apply IH. now apply keys_set_NoDup.
Qed.

Lemma get_None_not_key {V : Type} (k : string) (o : JsObj.t V) :
  JsObj.get k o = None <-> ~ In k (JsObj.keys o).
Proof.
  unfold JsObj.keys. induction o as [|[k' v'] o IH]; simpl; [tauto |].
  destruct (String.eqb_spec k' k) as [-> | Hne].
  - split; [discriminate | tauto].
  - rewrite IH. tauto.
Qed.

(** A binding of a dictionary built by a [reduce] comes from an element that
    sets its key, or from the initial dictionary. *)
Lemma get_reduce_inv {T V : Type} (key : T -> string) (val : T -> V)
    (l : list T) (o : JsObj.t V) (k : string) (v : V) :
  JsObj.get k (fold_left (fun m t => JsObj.set (key t) (val t) m) l o) = Some v ->
  (exists t, In t l /\ key t = k /\ val t = v) \/ JsObj.get k o = Some v.
Proof.
  intros Hget.
  destruct (in_dec string_dec k (map key l)) as [Hin | Hnot].
  - left. apply in_map_iff in Hin. destruct Hin as [t0 [Hk0 Hin0]].
    destruct (get_reduce_some key val l o k) as [t [Hin [Hk Hget']]];
      [now exists t0 |].
    exists t. rewrite Hget in Hget'. injection Hget' as Hv. now repeat split.
  - right. rewrite get_reduce_other in Hget; [exact Hget |].
    intros t Ht Hk. apply Hnot. apply in_map_iff. now exists t.
Qed.

(** The element that sets a key last is the one the key is bound to. *)
Lemma get_reduce_last {T V : Type} (key : T -> string) (val : T -> V)
    (before after : list T) (t : T) (o : JsObj.t V) :
  (forall t', In t' after -> key t' <> key t) ->
  JsObj.get (key t)
            (fold_left (fun m t => JsObj.set (key t) (val t) m)
                       (before ++ t :: after)%list o)
  = Some (val t).
Proof.
  intros Hafter. rewrite fold_left_app. simpl.
  rewrite get_reduce_other by exact Hafter. apply get_set_same.
Qed.

(** ** The indexes of [generate] *)

Lemma filter_cons_app {A : Type} (p : A -> bool) (before after : list A) (x : A) :
  p x = true ->
  filter p (before ++ x :: after)%list = (filter p before ++ x :: filter p after)%list.
Proof.
  intros Hp. rewrite filter_app. simpl. now rewrite Hp.
Qed.

(** X1.  The input types map registers the input types of the graph and
    nothing else: each key is listed once, a name is bound to an input type of
    the graph that has this name, a name no input type has is unbound, and of
    several input types of one name the last in the graph is the one bound. *)
Theorem inputTypesMapOf_registers_input_types (args : GenerateArgs) (inputName : string) :
  NoDup (JsObj.keys (inputTypesMapOf args))
  /\ (forall input,
         JsObj.get inputName (inputTypesMapOf args) = Some input ->
         In input (args_types args) /\ isInput (obj_type input) = true
         /\ obj_name input = inputName)
  /\ (JsObj.get inputName (inputTypesMapOf args) = None
      <-> forall type,
          In type (args_types args) -> isInput (obj_type type) = true ->
          obj_name type <> inputName)
  /\ (forall before input after,
         args_types args = (before ++ input :: after)%list ->
         isInput (obj_type input) = true ->
         obj_name input = inputName ->
         (forall later,
             In later after -> isInput (obj_type later) = true ->
             obj_name later <> inputName) ->
         JsObj.get inputName (inputTypesMapOf args) = Some input).
Proof.
  unfold inputTypesMapOf. split; [| split; [| split]].
  - apply keys_reduce_NoDup with (val := fun t : GraphQLTypeObject => t). constructor.
  - intros input Hget.
    apply get_reduce_inv with (val := fun t : GraphQLTypeObject => t) in Hget.
    destruct Hget as [[t [Hin [Hname Hval]]] | Hget]; [| discriminate Hget].
    simpl in Hval. subst t. apply filter_In in Hin. tauto.
  - split.
    + intros Hnone type Hin Hinput Hname.
      destruct (get_reduce_some obj_name (fun t : GraphQLTypeObject => t)
                  (filter (fun type => isInput (obj_type type)) (args_types args))
                  JsObj.empty inputName) as [t [_ [_ Hget]]].
      * exists type. split; [| exact Hname]. apply filter_In. now split.
      * congruence.
    + intros Hall.
      rewrite get_reduce_other with (val := fun t : GraphQLTypeObject => t);
        [reflexivity |].
      intros t Ht. apply filter_In in Ht. now apply Hall.
  - intros before input after Hsplit Hinput Hname Hlater.
    rewrite Hsplit,
      (filter_cons_app (fun type => isInput (obj_type type)) before after input Hinput),
      <- Hname.
    apply get_reduce_last with (val := fun t : GraphQLTypeObject => t).
    intros later Hin. apply filter_In in Hin. rewrite Hname. now apply Hlater.
Qed.

Lemma inputTypesMapOf_registers_input_types_witness :
  JsObj.get "Page" (inputTypesMapOf Sample.blogArgs) = Some Sample.Page
  /\ JsObj.get "Blog" (inputTypesMapOf Sample.blogArgs) = None.
Proof.
  destruct (inputTypesMapOf_registers_input_types Sample.blogArgs "Page")
    as [_ [_ [_ Hlast]]].
  destruct (inputTypesMapOf_registers_input_types Sample.blogArgs "Blog")
    as [_ [_ [Hnone _]]].
  split.
  - apply (Hlast [Sample.Blog; Sample.PostFilter] Sample.Page [Sample.Query]);
      try reflexivity.
    intros later [<- | []] Hinput. discriminate Hinput.
  - apply Hnone. simpl.
    intros type [<- | [<- | [<- | [<- | []]]]] Hinput; discriminate.
Defined.

Lemma hasInputArguments_directlyReferenced (type : GraphQLTypeObject) :
  hasInputArguments type = true -> exists inputName, directlyReferenced type inputName.
Proof.
  unfold hasInputArguments. intros H.
  destruct (filter _ (obj_fields type)) as [|field rest] eqn:Hfields;
    [discriminate H |].
  assert (Hin : In field (field :: rest)) by now left.
  rewrite <- Hfields in Hin. apply filter_In in Hin. destruct Hin as [Hfield Hargs].
  destruct (filter _ (arguments field)) as [|arg rest'] eqn:Hfilter;
    [discriminate Hargs |].
  assert (Hin : In arg (arg :: rest')) by now left.
  rewrite <- Hfilter in Hin. apply filter_In in Hin. destruct Hin as [Harg Hinput].
  exists (type_name (arg_type arg)), field, arg. tauto.
Qed.

(** X2.  The association of types with input types has an entry exactly for
    the names of the object types that take an argument of an input type:
    each key is listed once, an entry is never empty and holds the input type
    names of the arguments of one object type of that name, and a name is
    without entry if and only if no object type of that name takes an argument
    of an input type. *)
Theorem typeToInputTypeAssociationOf_entries (args : GenerateArgs) (typeName : string) :
  NoDup (JsObj.keys (typeToInputTypeAssociationOf args))
  /\ (forall names,
         JsObj.get typeName (typeToInputTypeAssociationOf args) = Some names ->
         names <> []
         /\ exists type,
             In type (args_types args) /\ isObject (obj_type type) = true
             /\ obj_name type = typeName
             /\ names = List.concat (map inputArgumentNames (obj_fields type))
             /\ forall inputName, In inputName names <-> directlyReferenced type inputName)
  /\ (JsObj.get typeName (typeToInputTypeAssociationOf args) = None
      <-> forall type,
          In type (args_types args) -> isObject (obj_type type) = true ->
          obj_name type = typeName -> hasInputArguments type = false).
Proof.
  unfold typeToInputTypeAssociationOf. split; [| split].
  - apply keys_reduce_NoDup
      with (val := fun t => List.concat (map inputArgumentNames (obj_fields t))).
    constructor.
  - intros names Hget.
    apply get_reduce_inv
      with (val := fun t => List.concat (map inputArgumentNames (obj_fields t)))
      in Hget.
    destruct Hget as [[type [Hin [Hname Hval]]] | Hget]; [| discriminate Hget].
    apply filter_In in Hin. destruct Hin as [Hin Hcond].
    apply andb_true_iff in Hcond. destruct Hcond as [Hobj Hhas].
    fold (hasInputArguments type) in Hhas.
    assert (Hiff : forall inputName,
               In inputName names <-> directlyReferenced type inputName).
    { intros inputName. rewrite <- Hval. apply inputArgumentNames_In. }
    split.
    + destruct (hasInputArguments_directlyReferenced type Hhas) as [inputName Href].
      apply Hiff in Href. intros Hnil. rewrite Hnil in Href. destruct Href.
    + exists type. now repeat split; try apply Hiff.
  - split.
    + intros Hnone type Hin Hobj Hname.
      destruct (hasInputArguments type) eqn:Hhas; [| reflexivity].
      destruct (get_reduce_some obj_name
                  (fun t => List.concat (map inputArgumentNames (obj_fields t)))
                  (filter
                     (fun type =>
                        isObject (obj_type type)
                        && (0 <? List.length
                                   (filter
                                      (fun field =>
                                         (0 <? List.length
                                                 (filter (fun arg => isInput (arg_type arg))
                                                         (arguments field)))%nat)
                                      (obj_fields type)))%nat)
                     (args_types args))
                  JsObj.empty typeName) as [t [_ [_ Hget]]].
      * exists type. split; [| exact Hname]. apply filter_In. split; [exact Hin |].
        fold (hasInputArguments type). now rewrite Hobj, Hhas.
      * congruence.
    + intros Hall.
      rewrite get_reduce_other
        with (val := fun t => List.concat (map inputArgumentNames (obj_fields t)));
        [reflexivity |].
      intros t Ht Hname. apply filter_In in Ht. destruct Ht as [Hin Hcond].
      apply andb_true_iff in Hcond. destruct Hcond as [Hobj Hhas].
      fold (hasInputArguments t) in Hhas.
      rewrite (Hall t Hin Hobj Hname) in Hhas. discriminate Hhas.
Qed.

Lemma typeToInputTypeAssociationOf_entries_witness :
  JsObj.get "Query" (typeToInputTypeAssociationOf Sample.blogArgs) = None
  /\ JsObj.get "Blog" (typeToInputTypeAssociationOf Sample.blogArgs) <> Some [].
Proof.
  destruct (typeToInputTypeAssociationOf_entries Sample.blogArgs "Query")
    as [_ [_ Hnone]].
  destruct (typeToInputTypeAssociationOf_entries Sample.blogArgs "Blog")
    as [_ [Hsome _]].
  split.
  - apply Hnone. simpl.
    intros type [<- | [<- | [<- | [<- | []]]]] Hobj Hname;
      first [reflexivity | discriminate].
  - intros Hget. destruct (Hsome [] Hget) as [Hne _]. now apply Hne.
Defined.

(** ** Lookup failures of the field resolvers *)

Section ResolverLookups.
Context {X : Externals}.


End ResolverLookups.


(** ** Possible types of [__isTypeOf] *)

Section PossibleTypes.
Context {X : Externals}.

Lemma interfacePossibleTypes_thrown
    (interfaceNames : list string) (interfacesMap : InterfacesMap) (e : JsError) :
  fold_left
    (fun acc interfaceName =>
       obj <- acc ;;
       match JsObj.get interfaceName interfacesMap with
       | Some impls => Ok (obj ++ impls)%list
       | None => Throw (TypeError "interfacesMap[interfaceName] is not iterable")
       end)
    interfaceNames (Throw e)
  = Throw e.
Proof.
  induction interfaceNames as [|n names IH]; simpl; [reflexivity | exact IH].
Qed.

Lemma interfacePossibleTypes_from
    (interfaceNames : list string) (interfacesMap : InterfacesMap)
    (sofar : list GraphQLType) :
  fold_left
    (fun acc interfaceName =>
       obj <- acc ;;
       match JsObj.get interfaceName interfacesMap with
       | Some impls => Ok (obj ++ impls)%list
       | None => Throw (TypeError "interfacesMap[interfaceName] is not iterable")
       end)
    interfaceNames (Ok sofar)
  = if knownInterfaces interfaceNames interfacesMap
    then Ok (sofar ++ implementorsOf interfaceNames interfacesMap)%list
    else Throw (TypeError "interfacesMap[interfaceName] is not iterable").
Proof.
  revert sofar. induction interfaceNames as [|n names IH]; intros sofar; simpl.
  - now rewrite app_nil_r.
  - destruct (JsObj.get n interfacesMap) as [impls |]; simpl.
    + rewrite IH. destruct (knownInterfaces names interfacesMap);
        [now rewrite app_assoc | reflexivity].
    + apply interfacePossibleTypes_thrown.
Qed.

(** The [reduce] over the implemented interfaces: all their implementors, or
    a [TypeError] when one of them is unknown. *)
Lemma interfacePossibleTypes_known
    (interfaceNames : list string) (interfacesMap : InterfacesMap) :
  interfacePossibleTypes interfaceNames interfacesMap
  = if knownInterfaces interfaceNames interfacesMap
    then Ok (implementorsOf interfaceNames interfacesMap)
    else Throw (TypeError "interfacesMap[interfaceName] is not iterable").
Proof.
  unfold interfacePossibleTypes. now rewrite interfacePossibleTypes_from.
Qed.

Lemma find_all_false {A : Type} (p : A -> bool) (l : list A) :
  (forall x, In x l -> p x = false) -> find p l = None.
Proof.
  induction l as [|x l IH]; intros H; simpl; [reflexivity |].
  rewrite (H x (or_introl eq_refl)). apply IH. intros y Hy. apply H. now right.
Qed.

Lemma lastListingUnion_none (typeName : string) (unionsMap : UnionsMap) :
  (forall unionName members,
      JsObj.get unionName unionsMap = Some members ->
      existsb (fun unionType => type_name unionType =? typeName) members = false) ->
  lastListingUnion typeName unionsMap = None.
Proof.
  intros Hnone. unfold lastListingUnion. rewrite find_all_false; [reflexivity |].
  intros unionName _. unfold listsType.
  destruct (JsObj.get unionName unionsMap) as [members |] eqn:Hget;
    [now apply (Hnone unionName) | reflexivity].
Qed.


Lemma isTypeOf_of_possibleTypes
    (possibleTypes : list GraphQLType) modelMap context :
  (if (List.length possibleTypes =? 0)%nat then Ok ""
   else Ok (isTypeOfMember possibleTypes modelMap context))
  = Ok (match possibleTypes with
        | [] => ""
        | _ => isTypeOfMember possibleTypes modelMap context
        end).
Proof. now destruct possibleTypes. Qed.

(** X4.  [renderIsTypeOfFunctionInterface] can throw only when a type that is
    not flagged as an interface implements an interface that the interfaces
    map does not hold.  When every implemented interface is held, it returns:
    the [__isTypeOf] member over the members of the union enumerated last
    among those that list the type, if there is one, otherwise over the
    implementors of all the interfaces of a type not flagged as an interface,
    and the empty text when there is no such member or implementor. *)
Theorem renderIsTypeOf_returns_when_interfaces_known
    (type : ObjectOrInterface) modelMap interfacesMap unionsMap context :
  ((exists e,
       renderIsTypeOfFunctionInterface type modelMap interfacesMap unionsMap context
       = Throw e) ->
   isInterface (oi_type type) = false
   /\ exists interfaceNames,
       oi_implements type = Some interfaceNames
       /\ knownInterfaces interfaceNames interfacesMap = false)
  /\ ((forall interfaceNames,
          isInterface (oi_type type) = false ->
          oi_implements type = Some interfaceNames ->
          knownInterfaces interfaceNames interfacesMap = true) ->
      renderIsTypeOfFunctionInterface type modelMap interfacesMap unionsMap context
      = Ok (match
               match lastListingUnion (oi_name type) unionsMap with
               | Some members => members
               | None =>
                   if isInterface (oi_type type) then []
                   else match oi_implements type with
                        | Some interfaceNames =>
                            implementorsOf interfaceNames interfacesMap
                        | None => []
                        end
               end
             with
             | [] => ""
             | possible =>
                 "    __isTypeOf?: GraphQLIsTypeOfFn<"
                 ++ join " | "
                      (map (fun candidate => getModelName candidate modelMap None)
                           possible)
                 ++ ", " ++ getContextName context ++ ">;"
             end)).
Proof.
  unfold renderIsTypeOfFunctionInterface. split.
  - destruct (isInterface (oi_type type)); simpl.
    + rewrite isTypeOf_of_possibleTypes. intros [e He]. discriminate He.
    + destruct (oi_implements type) as [interfaceNames |]; simpl.
      * rewrite interfacePossibleTypes_known.
        destruct (knownInterfaces interfaceNames interfacesMap) eqn:Hknown; simpl.
        -- rewrite isTypeOf_of_possibleTypes. intros [e He]. discriminate He.
        -- intros _. split; [reflexivity |]. now exists interfaceNames.
      * rewrite isTypeOf_of_possibleTypes. intros [e He]. discriminate He.
  - intros Hknown.
    assert (Hstart :
              (if negb (isInterface (oi_type type))
               then match oi_implements type with
                    | Some interfaceNames =>
                        interfacePossibleTypes interfaceNames interfacesMap
                    | None => Ok []
                    end
               else Ok [])
              = Ok (if isInterface (oi_type type) then []
                    else match oi_implements type with
                         | Some interfaceNames =>
                             implementorsOf interfaceNames interfacesMap
                         | None => []
                         end)).
    { destruct (isInterface (oi_type type)); simpl; [reflexivity |].
      destruct (oi_implements type) as [interfaceNames |]; [| reflexivity].
      now rewrite interfacePossibleTypes_known, (Hknown interfaceNames eq_refl eq_refl). }
    rewrite Hstart. simpl.
    rewrite unionPossibleTypes_last, isTypeOf_of_possibleTypes.
    destruct (lastListingUnion (oi_name type) unionsMap) as [members |];
      [now destruct members |].
    now destruct (if isInterface (oi_type type) then _ else _).
Qed.

(** X5.  For a type that is not flagged as an interface, whose implemented
    interfaces are all known and which no union lists, the candidate value of
    [__isTypeOf] is built from the implementors of all its interfaces, in the
    order of its [implements] list; the member is left out when there is no
    implementor. *)
Theorem isTypeOf_from_interfaces_when_no_union_lists
    (type : ObjectOrInterface) modelMap interfacesMap unionsMap context
    (interfaceNames : list string) :
  isInterface (oi_type type) = false ->
  oi_implements type = Some interfaceNames ->
  knownInterfaces interfaceNames interfacesMap = true ->
  (forall unionName members,
      JsObj.get unionName unionsMap = Some members ->
      existsb (fun unionType => type_name unionType =? oi_name type) members = false) ->
  renderIsTypeOfFunctionInterface type modelMap interfacesMap unionsMap context
  = Ok (match implementorsOf interfaceNames interfacesMap with
        | [] => ""
        | implementing =>
            "    __isTypeOf?: GraphQLIsTypeOfFn<"
            ++ join " | "
                 (map (fun impl => getModelName impl modelMap None) implementing)
            ++ ", " ++ getContextName context ++ ">;"
        end).
Proof.
  intros Hobj Himpl Hknown Hnone.
  unfold renderIsTypeOfFunctionInterface.
  rewrite Hobj, Himpl, interfacePossibleTypes_known, Hknown. simpl.
  rewrite unionPossibleTypes_last, (lastListingUnion_none _ _ Hnone).
  rewrite isTypeOf_of_possibleTypes.
  now destruct (implementorsOf interfaceNames interfacesMap).
Qed.

(** X6.  For a type flagged as an interface, and for a type without an
    [implements] list, the interfaces map is not read: the result depends on
    the unions alone.  It is the member over the members of the union
    enumerated last among those that list the type, one of which bears the
    type's name, and the empty text when no union lists it. *)
Theorem isTypeOf_from_unions_alone
    (type : ObjectOrInterface) modelMap interfacesMap unionsMap context :
  isInterface (oi_type type) = true \/ oi_implements type = None ->
  renderIsTypeOfFunctionInterface type modelMap interfacesMap unionsMap context
  = match lastListingUnion (oi_name type) unionsMap with
    | Some members => Ok (isTypeOfMember members modelMap context)
    | None => Ok ""
    end
  /\ (forall members,
         lastListingUnion (oi_name type) unionsMap = Some members ->
         exists member, In member members /\ type_name member = oi_name type).
Proof.
  intros Hcase. split.
  - assert (Hstart :
              (if negb (isInterface (oi_type type))
               then match oi_implements type with
                    | Some interfaceNames =>
                        interfacePossibleTypes interfaceNames interfacesMap
                    | None => Ok []
                    end
               else Ok [])
              = Ok []).
    { destruct Hcase as [-> | ->]; [reflexivity |].
      now destruct (isInterface (oi_type type)). }
    unfold renderIsTypeOfFunctionInterface. rewrite Hstart. simpl.
    rewrite unionPossibleTypes_last, isTypeOf_of_possibleTypes.
    destruct (lastListingUnion (oi_name type) unionsMap) as [members |] eqn:Hlast;
      [| reflexivity].
    apply lastListingUnion_lists in Hlast. now destruct members.
  - intros members Hlast. apply lastListingUnion_lists in Hlast.
    apply existsb_exists in Hlast. destruct Hlast as [member [Hin Hname]].
    exists member. split; [exact Hin |]. now apply String.eqb_eq.
Qed.


End PossibleTypes.

Lemma renderIsTypeOf_returns_when_interfaces_known_witness :
  renderIsTypeOfFunctionInterface (X := Sample.externals) (OfObject Sample.Cat)
    Sample.petModels Sample.petInterfaces Sample.petUnions None
  = Ok "    __isTypeOf?: GraphQLIsTypeOfFn<CatModel | FishModel, Context>;"
  /\ renderIsTypeOfFunctionInterface (X := Sample.externals) (OfObject Sample.Dog)
       Sample.petModels Sample.petInterfaces Sample.petUnions None
     = Ok "    __isTypeOf?: GraphQLIsTypeOfFn<CatModel | DogModel, Context>;".
Proof.
  split.
  - apply (proj2 (renderIsTypeOf_returns_when_interfaces_known (X := Sample.externals)
                    (OfObject Sample.Cat) Sample.petModels Sample.petInterfaces
                    Sample.petUnions None)).
    intros interfaceNames _ Himpl. injection Himpl as <-. reflexivity.
  - apply (proj2 (renderIsTypeOf_returns_when_interfaces_known (X := Sample.externals)
                    (OfObject Sample.Dog) Sample.petModels Sample.petInterfaces
                    Sample.petUnions None)).
    intros interfaceNames _ Himpl. injection Himpl as <-. reflexivity.
Defined.

Lemma isTypeOf_from_interfaces_when_no_union_lists_witness :
  renderIsTypeOfFunctionInterface (X := Sample.externals) (OfObject Sample.Dog)
    Sample.petModels Sample.petInterfaces Sample.petUnions None
  = Ok "    __isTypeOf?: GraphQLIsTypeOfFn<CatModel | DogModel, Context>;".
Proof.
  apply (isTypeOf_from_interfaces_when_no_union_lists (X := Sample.externals)
           (OfObject Sample.Dog) Sample.petModels Sample.petInterfaces
           Sample.petUnions None ["Animal"]); try reflexivity.
  intros unionName members Hget.
  change Sample.petUnions
    with [("Pet", [Sample.objectRef "Cat"; Sample.objectRef "Fish"])] in Hget.
  cbn [JsObj.get] in Hget.
  destruct ("Pet" =? unionName); [| discriminate Hget].
  injection Hget as <-. reflexivity.
Defined.

Lemma isTypeOf_from_unions_alone_witness :
  renderIsTypeOfFunctionInterface (X := Sample.externals) (OfObject Sample.Fish)
    Sample.petModels Sample.petInterfaces Sample.petUnions None
  = Ok "    __isTypeOf?: GraphQLIsTypeOfFn<CatModel | FishModel, Context>;"
  /\ renderIsTypeOfFunctionInterface (X := Sample.externals) (OfInterface Sample.Animal)
       Sample.petModels [] Sample.petUnions None
     = Ok "".
Proof.
  split.
  - apply (proj1 (isTypeOf_from_unions_alone (X := Sample.externals)
                    (OfObject Sample.Fish) Sample.petModels Sample.petInterfaces
                    Sample.petUnions None (or_intror eq_refl))).
  - apply (proj1 (isTypeOf_from_unions_alone (X := Sample.externals)
                    (OfInterface Sample.Animal) Sample.petModels []
                    Sample.petUnions None (or_introl eq_refl))).
Defined.


(** ** The declaration group of an object type *)

Section DeclarationGroup.
Context {X : Externals}.

Lemma mapR_Forall2 {A B : Type} (f : A -> Result B) (xs : list A) (ys : list B) :
  mapR f xs = Ok ys -> Forall2 (fun x y => f x = Ok y) xs ys.
Proof.
  revert ys. induction xs as [|x xs IH]; intros ys H; simpl in H.
  - injection H as <-. constructor.
  - destruct (f x) as [y | e] eqn:Hx; simpl in H; [| discriminate H].
    destruct (mapR f xs) as [ys' | e]; simpl in H; [| discriminate H].
    injection H as <-. constructor; [exact Hx | now apply IH].
Qed.

Lemma renderResolverFunctionInterfaces_aliases
    (type : GraphQLTypeObject) modelMap interfacesMap unionsMap context :
  renderResolverFunctionInterfaces type modelMap interfacesMap unionsMap context
  = (resolvers <-
       mapR (fun field =>
               renderTypeResolver field (OfObject type) modelMap interfacesMap
                                  unionsMap context)
            (obj_fields type) ;;
     Ok (join EOL (map resolverAlias (combine (obj_fields type) resolvers)))).
Proof.
  unfold renderResolverFunctionInterfaces.
  match goal with
  | |- bind ?m _ = _ =>
      replace m
        with (resolvers <-
                mapR (fun field =>
                        renderTypeResolver field (OfObject type) modelMap interfacesMap
                                           unionsMap context)
                     (obj_fields type) ;;
              Ok (map resolverAlias (combine (obj_fields type) resolvers)))
        by (symmetry;
            exact (mapR_post
                     (fun field =>
                        renderTypeResolver field (OfObject type) modelMap interfacesMap
                                           unionsMap context)
                     resolverAlias (obj_fields type)))
  end.
  now destruct (mapR _ (obj_fields type)).
Qed.

Lemma renderResolverTypeInterface_members
    (type : ObjectOrInterface) modelMap interfacesMap unionsMap context :
  renderResolverTypeInterface type modelMap interfacesMap unionsMap context None
  = (resolvers <-
       mapR (fun field =>
               renderTypeResolver field type modelMap interfacesMap unionsMap context)
            (oi_fields type) ;;
     isTypeOf <- renderIsTypeOfFunctionInterface type modelMap interfacesMap
                                                 unionsMap context ;;
     Ok (lines
           [ "";
             "  export interface Type {";
             "    " ++ join EOL (map resolverMember (combine (oi_fields type) resolvers));
             "      " ++ isTypeOf;
             "  }";
             "  " ])).
Proof.
  unfold renderResolverTypeInterface.
  match goal with
  | |- bind ?m _ = _ =>
      replace m
        with (resolvers <-
                mapR (fun field =>
                        renderTypeResolver field type modelMap interfacesMap
                                           unionsMap context)
                     (oi_fields type) ;;
              Ok (map resolverMember (combine (oi_fields type) resolvers)))
        by (symmetry;
            exact (mapR_post
                     (fun field =>
                        renderTypeResolver field type modelMap interfacesMap
                                           unionsMap context)
                     resolverMember (oi_fields type)))
  end.
  now destruct (mapR _ (oi_fields type)).
Qed.

(** X8.  In the group of an object type, the alias [<Field>Resolver] and the
    member of [Type] of a field carry the same resolver text, the one
    [renderTypeResolver] returns for the field: whenever the aliases are
    rendered there is one resolver per field, in the order of the fields, the
    aliases are these resolvers under [export type <Field>Resolver = ], and
    [Type] lists the same resolvers under the field names, followed by the
    [__isTypeOf] member. *)
Theorem aliases_and_members_share_resolvers
    (type : GraphQLTypeObject) modelMap interfacesMap unionsMap context
    (aliases : string) :
  renderResolverFunctionInterfaces type modelMap interfacesMap unionsMap context
  = Ok aliases ->
  exists resolvers,
    List.length resolvers = List.length (obj_fields type)
    /\ Forall2
         (fun field resolver =>
            renderTypeResolver field (OfObject type) modelMap interfacesMap
                               unionsMap context = Ok resolver)
         (obj_fields type) resolvers
    /\ aliases
       = join EOL
           (map (fun entry =>
                   "export type " ++ upperFirst (field_name (fst entry))
                   ++ "Resolver = " ++ snd entry)
                (combine (obj_fields type) resolvers))
    /\ renderResolverTypeInterface (OfObject type) modelMap interfacesMap unionsMap
                                   context None
       = (isTypeOf <- renderIsTypeOfFunctionInterface (OfObject type) modelMap
                        interfacesMap unionsMap context ;;
          Ok (lines
                [ "";
                  "  export interface Type {";
                  "    "
                  ++ join EOL
                       (map (fun entry => field_name (fst entry) ++ ": " ++ snd entry)
                            (combine (obj_fields type) resolvers));
                  "      " ++ isTypeOf;
                  "  }";
                  "  " ])).
Proof.
  rewrite renderResolverFunctionInterfaces_aliases, renderResolverTypeInterface_members.
  simpl oi_fields.
  destruct (mapR _ (obj_fields type)) as [resolvers | e] eqn:Hmap; simpl;
    [| discriminate].
  intros Haliases. injection Haliases as <-.
  exists resolvers. pose proof (mapR_Forall2 _ _ _ Hmap) as Hall.
  split; [symmetry; exact (Forall2_length Hall) |].
  split; [exact Hall |]. split; reflexivity.
Qed.

End DeclarationGroup.

Lemma aliases_and_members_share_resolvers_witness :
  exists resolvers,
    List.length resolvers = 2
    /\ renderResolverTypeInterface (X := Sample.externals) (OfObject Sample.Blog)
         [] [] [] None None
       = Ok (lines
               [ "";
                 "  export interface Type {";
                 "    "
                 ++ join nl
                      (map (fun entry => field_name (fst entry) ++ ": " ++ snd entry)
                           (combine [Sample.posts; Sample.title] resolvers));
                 "      ";
                 "  }";
                 "  " ]).
Proof.
  destruct (aliases_and_members_share_resolvers (X := Sample.externals) Sample.Blog
              [] [] [] None _ eq_refl) as [resolvers [Hlen [_ [_ Htype]]]].
  exists resolvers. split; [exact Hlen | exact Htype].
Defined.

(** ** Success and failure of [generate] *)

Section Generation.
Context {X : Externals}.

(** The input types of an object type named once, and not after a property
    of [Object.prototype], are rendered when the graph registers them. *)
Lemma renderInputTypeInterfaces_Ok
    (args : GenerateArgs) (type : GraphQLTypeObject) modelMap interfacesMap unionsMap :
  In type (args_types args) ->
  isObject (obj_type type) = true ->
  (forall other,
      In other (args_types args) -> isObject (obj_type other) = true ->
      obj_name other = obj_name type -> other = type) ->
  (forall inputName,
      directlyReferenced type inputName ->
      exists input,
        In input (args_types args) /\ isInput (obj_type input) = true
        /\ obj_name input = inputName) ->
  JsObj.inherited (obj_name type) = false ->
  exists out,
    renderInputTypeInterfaces type modelMap interfacesMap unionsMap
                              (typeToInputTypeAssociationOf args) (inputTypesMapOf args)
    = Ok out.
Proof.
  intros Hin Hobj Honly Hreg Hown.
  pose proof (typeToInputTypeAssociationOf_get args type Hin Hobj Honly) as Hassoc.
  unfold renderInputTypeInterfaces, getDistinctInputTypes.
  destruct (hasInputArguments type).
  - rewrite (read_own _ _ _ Hassoc), Hassoc. simpl.
    rewrite mapR_renderInputTypeInterface; [simpl; eauto |].
    intros inputName Hname. apply inputTypesMapOf_get. apply Hreg.
    apply inputArgumentNames_In. now apply distinct_In.
  - rewrite (read_not_own _ _ Hassoc), Hown. now exists "".
Qed.

(** ... and they make the rendering throw when the graph does not register
    one of them. *)
Lemma renderInputTypeInterfaces_Throw
    (args : GenerateArgs) (type : GraphQLTypeObject) modelMap interfacesMap unionsMap
    (inputName : string) :
  In type (args_types args) ->
  isObject (obj_type type) = true ->
  (forall other,
      In other (args_types args) -> isObject (obj_type other) = true ->
      obj_name other = obj_name type -> other = type) ->
  directlyReferenced type inputName ->
  (forall input,
      In input (args_types args) -> isInput (obj_type input) = true ->
      obj_name input <> inputName) ->
  exists e,
    renderInputTypeInterfaces type modelMap interfacesMap unionsMap
                              (typeToInputTypeAssociationOf args) (inputTypesMapOf args)
    = Throw e.
Proof.
  intros Hin Hobj Honly Href Hnone.
  pose proof (typeToInputTypeAssociationOf_get args type Hin Hobj Honly) as Hassoc.
  rewrite (directlyReferenced_hasInputArguments type inputName Href) in Hassoc.
  unfold renderInputTypeInterfaces, getDistinctInputTypes.
  rewrite (read_own _ _ _ Hassoc), Hassoc. simpl.
  assert (Hunbound : JsObj.get inputName (inputTypesMapOf args) = None).
  { unfold inputTypesMapOf.
    rewrite get_reduce_other with (val := fun t : GraphQLTypeObject => t);
      [reflexivity |].
    intros input Hinput. apply filter_In in Hinput. now apply Hnone. }
  assert (Hthrows :
            exists e,
              renderInputTypeInterface modelMap interfacesMap unionsMap
                                       (inputTypesMapOf args) inputName = Throw e).
  { unfold renderInputTypeInterface. rewrite (read_not_own _ _ Hunbound).
    destruct (JsObj.inherited inputName); eauto. }
  destruct Hthrows as [e0 He0].
  destruct (mapR_Throw
              (renderInputTypeInterface modelMap interfacesMap unionsMap
                                        (inputTypesMapOf args))
              (distinct (List.concat (map inputArgumentNames (obj_fields type))))
              inputName e0)
    as [e He]; [| exact He0 |].
  - apply distinct_In. now apply inputArgumentNames_In.
  - rewrite He. simpl. now exists e.
Qed.

Lemma renderIsTypeOf_Ok
    (type : GraphQLTypeObject) modelMap interfacesMap unionsMap context :
  (forall interfaceNames,
      implements type = Some interfaceNames ->
      knownInterfaces interfaceNames interfacesMap = true) ->
  exists out,
    renderIsTypeOfFunctionInterface (OfObject type) modelMap interfacesMap unionsMap
                                    context = Ok out.
Proof.
  intros Hknown. unfold renderIsTypeOfFunctionInterface. simpl.
  destruct (isInterface (obj_type type)); simpl.
  - rewrite isTypeOf_of_possibleTypes. eauto.
  - destruct (implements type) as [interfaceNames |]; simpl.
    + rewrite interfacePossibleTypes_known, (Hknown interfaceNames eq_refl). simpl.
      rewrite isTypeOf_of_possibleTypes. eauto.
    + rewrite isTypeOf_of_possibleTypes. eauto.
Qed.

Lemma renderNamespace_Ok (args : GenerateArgs) (type : GraphQLTypeObject) :
  renderable args ->
  In type (args_types args) ->
  isObject (obj_type type) = true ->
  exists out,
    renderNamespace type (createInterfacesMap (args_interfaces args))
                    (createUnionsMap (args_unions args))
                    (typeToInputTypeAssociationOf args) (inputTypesMapOf args) args
    = Ok out.
Proof.
  intros Hgraph Hin Hobj. unfold renderNamespace.
  destruct (renderInputTypeInterfaces_Ok args type (args_modelMap args)
              (createInterfacesMap (args_interfaces args))
              (createUnionsMap (args_unions args)) Hin Hobj)
    as [inputTypes ->].
  { intros other Hother Hobj' Hname.
    exact (objects_named_once args Hgraph type other Hin Hobj Hother Hobj' Hname). }
  { intros inputName Href.
    exact (inputs_registered args Hgraph type inputName Hin Hobj Href). }
  { exact (objects_not_inherited args Hgraph type Hin Hobj). }
  simpl.
  assert (Hresolvers :
            exists resolvers,
              mapR (fun field =>
                      renderTypeResolver field (OfObject type) (args_modelMap args)
                        (createInterfacesMap (args_interfaces args))
                        (createUnionsMap (args_unions args)) (args_context args))
                   (obj_fields type)
              = Ok resolvers).
  { apply mapR_Ok. intros field _. apply renderTypeResolver_total. left.
    exact (objects_not_interfaces args Hgraph type Hin Hobj). }
  destruct Hresolvers as [resolvers Hresolvers].
  rewrite renderResolverFunctionInterfaces_aliases, Hresolvers. simpl.
  rewrite renderResolverTypeInterface_members. simpl oi_fields.
  rewrite Hresolvers. simpl.
  destruct (renderIsTypeOf_Ok type (args_modelMap args)
              (createInterfacesMap (args_interfaces args))
              (createUnionsMap (args_unions args)) (args_context args))
    as [isTypeOf ->].
  { intros interfaceNames Himpl.
    exact (interfaces_known args Hgraph type interfaceNames Hin Hobj Himpl). }
  simpl. eauto.
Qed.

(** X9.  [generate] returns a text, and throws nothing, for a graph whose
    object types are not named after a property of [Object.prototype], are
    not flagged as interfaces, bear different names, take arguments of
    registered input types only and implement interfaces that the interfaces
    map knows. *)
Theorem generate_returns_for_renderable_graph (args : GenerateArgs) :
  renderable args -> exists text, generate args = Ok text.
Proof.
  intros Hgraph. unfold generate, renderNamespaces, renderObjectNamespaces.
  destruct (mapR_Ok
              (fun type =>
                 renderNamespace type (createInterfacesMap (args_interfaces args))
                                 (createUnionsMap (args_unions args))
                                 (typeToInputTypeAssociationOf args)
                                 (inputTypesMapOf args) args)
              (filter (fun type => isObject (obj_type type)) (args_types args)))
    as [groups ->].
  - intros type Hin. apply filter_In in Hin. destruct Hin as [Hin Hobj].
    now apply renderNamespace_Ok.
  - simpl. eauto.
Qed.

(** X10.  [generate] throws, and returns no text at all, when an object type
    named once in the graph takes an argument of an input type that the graph
    does not declare. *)
Theorem generate_throws_on_unregistered_input
    (args : GenerateArgs) (type : GraphQLTypeObject) (inputName : string) :
  In type (args_types args) ->
  isObject (obj_type type) = true ->
  (forall other,
      In other (args_types args) -> isObject (obj_type other) = true ->
      obj_name other = obj_name type -> other = type) ->
  directlyReferenced type inputName ->
  (forall input,
      In input (args_types args) -> isInput (obj_type input) = true ->
      obj_name input <> inputName) ->
  exists e, generate args = Throw e.
Proof.
  intros Hin Hobj Honly Href Hnone.
  unfold generate, renderNamespaces, renderObjectNamespaces.
  destruct (renderInputTypeInterfaces_Throw args type (args_modelMap args)
              (createInterfacesMap (args_interfaces args))
              (createUnionsMap (args_unions args)) inputName
              Hin Hobj Honly Href Hnone) as [e He].
  destruct (mapR_Throw
              (fun type =>
                 renderNamespace type (createInterfacesMap (args_interfaces args))
                                 (createUnionsMap (args_unions args))
                                 (typeToInputTypeAssociationOf args)
                                 (inputTypesMapOf args) args)
              (filter (fun type => isObject (obj_type type)) (args_types args))
              type e) as [e' He'].
  - apply filter_In. now split.
  - unfold renderNamespace. now rewrite He.
  - rewrite He'. simpl. now exists e'.
Qed.

End Generation.

Lemma generate_returns_for_renderable_graph_witness :
  exists text, generate (X := Sample.externals) Sample.petArgs = Ok text.
Proof.
  apply (generate_returns_for_renderable_graph (X := Sample.externals) Sample.petArgs).
  constructor.
  - intros type [<- | [<- | [<- | []]]] _; reflexivity.
  - intros type [<- | [<- | [<- | []]]] _; reflexivity.
  - intros type other [<- | [<- | [<- | []]]] _ [<- | [<- | [<- | []]]] _ Hname;
      first [reflexivity | discriminate Hname].
  - intros type inputName [<- | [<- | [<- | []]]] _
           [field [arg [[<- | []] [[] _]]]].
  - intros type interfaceNames [<- | [<- | [<- | []]]] _ Himpl;
      first [discriminate Himpl | injection Himpl as <-; reflexivity].
Defined.

Lemma generate_throws_on_unregistered_input_witness :
  exists e, generate (X := Sample.externals) Sample.shopArgs = Throw e.
Proof.
  apply (generate_throws_on_unregistered_input (X := Sample.externals)
           Sample.shopArgs Sample.Shop "ItemFilter").
  - simpl. tauto.
  - reflexivity.
  - intros other [<- | [<- | []]] _ Hname; first [reflexivity | discriminate Hname].
  - exists Sample.items, (mkArgument "filter" (Sample.inputRef "ItemFilter")).
    simpl. tauto.
  - intros input [<- | [<- | []]] Hinput; discriminate Hinput.
Defined.

(** ** Imports *)

Section Imports.
Context {X : Externals}.

Lemma get_entry {V : Type} (o : JsObj.t V) (k : string) (v : V) :
  NoDup (JsObj.keys o) -> In (k, v) o -> JsObj.get k o = Some v.
Proof.
  unfold JsObj.keys. induction o as [|[k' v'] o IH]; intros Hnodup Hin;
    [destruct Hin |].
  simpl in Hnodup. inversion Hnodup as [|? ? Hnot Hrest]; subst. simpl.
  destruct Hin as [Heq | Hin].
  - injection Heq as -> ->. now rewrite String.eqb_refl.
  - destruct (String.eqb_spec k' k) as [-> | _]; [| now apply IH].
    exfalso. apply Hnot. apply in_map_iff. now exists (k, v).
Qed.

(** Enumerating the keys of a dictionary and reading each of them visits its
    entries. *)
Lemma keys_then_get {V B : Type} (o : JsObj.t V) (f : string -> option V -> B)
    (l : list (string * V)) :
  NoDup (JsObj.keys o) -> incl l o ->
  map (fun k => f k (JsObj.get k o)) (map fst l)
  = map (fun entry => f (fst entry) (Some (snd entry))) l.
Proof.
  intros Hnodup. induction l as [|[k v] l IH]; intros Hincl; [reflexivity |].
  simpl. rewrite (get_entry o k v Hnodup) by (apply Hincl; now left).
  f_equal. apply IH. intros entry Hentry. apply Hincl. now right.
Qed.

Lemma keys_filter_get {V : Type} (o : JsObj.t V) (p : V -> bool)
    (l : list (string * V)) :
  NoDup (JsObj.keys o) -> incl l o ->
  flat_map (fun k => match JsObj.get k o with Some v => [v] | None => [] end)
           (filter (fun k => match JsObj.get k o with Some v => p v | None => false end)
                   (map fst l))
  = map snd (filter (fun entry => p (snd entry)) l).
Proof.
  intros Hnodup. induction l as [|[k v] l IH]; intros Hincl; [reflexivity |].
  assert (Hget : JsObj.get k o = Some v) by (apply get_entry; [assumption |]; apply Hincl; now left).
  assert (Hrest : incl l o) by (intros entry Hentry; apply Hincl; now right).
  simpl. rewrite Hget. destruct (p v); simpl; [rewrite Hget; simpl; f_equal |];
    now apply IH.
Qed.

Lemma importsToString_lines (modelsByImportPaths : JsObj.t (list string)) :
  NoDup (JsObj.keys modelsByImportPaths) ->
  importsToString modelsByImportPaths = join EOL (map importLine modelsByImportPaths).
Proof.
  intros Hnodup. unfold importsToString, JsObj.keys. f_equal.
  apply (keys_then_get modelsByImportPaths
           (fun importPath names =>
              "import { "
              ++ join ", " (match names with Some names => names | None => [] end)
              ++ " } from '" ++ importPath ++ "'")
           modelsByImportPaths Hnodup).
  apply incl_refl.
Qed.

Lemma set_split {V : Type} (k : string) (v : V) (o : JsObj.t V) :
  NoDup (JsObj.keys o) ->
  exists before after,
    JsObj.set k v o = (before ++ (k, v) :: after)%list
    /\ ~ In k (JsObj.keys before) /\ ~ In k (JsObj.keys after)
    /\ (In k (JsObj.keys o) -> JsObj.keys o = JsObj.keys (before ++ (k, v) :: after)%list)
    /\ (~ In k (JsObj.keys o) -> o = before /\ after = []).
Proof.
  unfold JsObj.keys. induction o as [|[k' v'] o IH]; intros Hnodup.
  - exists [], []. simpl. tauto.
  - simpl in Hnodup. inversion Hnodup as [|? ? Hnot Hrest]; subst. simpl.
    destruct (String.eqb_spec k' k) as [-> | Hne].
    + exists [], o. simpl. repeat split; tauto.
    + destruct (IH Hrest) as [before [after [Hset [Hb [Ha [Hkeys Hnew]]]]]].
      exists ((k', v') :: before), after. rewrite Hset. simpl. repeat split.
      * intros [Heq | Hin]; [congruence | contradiction].
      * exact Ha.
      * intros [Heq | Hin]; [congruence |]. f_equal. now apply Hkeys.
      * f_equal. apply Hnew. tauto.
      * apply Hnew. tauto.
Qed.

(** X11.  Of the models of the model map, those whose definition is of kind
    [TypeAliasDefinition] and has a truthy [isEnum] property are left out of
    the imports, whatever that property stands for, and every other model is
    handed to the grouping by import path once, in the order of the map;
    without a context the imports end with the declaration of the context
    type as [any]. *)
Theorem renderImports_leaves_out_aliases_with_isEnum (args : GenerateArgs) :
  NoDup (JsObj.keys (args_modelMap args)) ->
  let grouped := groupModelsNameByImportPath (importedModels (args_modelMap args)) in
  (forall model,
      In model (importedModels (args_modelMap args))
      <-> (exists name, In (name, model) (args_modelMap args))
          /\ isEnumAlias model = false)
  /\ renderImports args
     = match args_context args with
       | Some context =>
           importsToString
             (JsObj.set (contextPath context)
                        (match JsObj.get (contextPath context) grouped with
                         | Some names => names
                         | None => []
                         end ++ [getContextName (Some context)])%list
                        grouped)
       | None =>
           importsToString grouped ++ EOL ++ "type " ++ getContextName None ++ " = any"
       end.
Proof.
  intros Hnodup grouped. split.
  - intros model. unfold importedModels. rewrite in_map_iff. split.
    + intros [[name model'] [Hsnd Hin]]. simpl in Hsnd. subst model'.
      apply filter_In in Hin. destruct Hin as [Hin Hkeep]. simpl in Hkeep.
      apply negb_true_iff in Hkeep. split; [now exists name | exact Hkeep].
    + intros [[name Hin] Hkeep]. exists (name, model). split; [reflexivity |].
      apply filter_In. split; [exact Hin |]. simpl. now rewrite Hkeep.
  - pose proof (keys_filter_get (args_modelMap args)
                  (fun model => negb (isEnumAlias model))
                  (args_modelMap args) Hnodup (incl_refl _)) as Hkeys.
    unfold isEnumAlias in Hkeys.
    unfold renderImports, JsObj.keys. cbv zeta. rewrite Hkeys. reflexivity.
Qed.

(** X12.  With a context, the context type is imported by the one import
    statement of its path: that statement lists the models grouped under the
    path, if any, followed by the context type, it keeps the place of the path
    among the statements or comes last when no model shares the path, and no
    other statement names the path. *)
Theorem context_imported_with_models_of_its_path
    (args : GenerateArgs) (context : ContextDefinition) :
  NoDup (JsObj.keys (args_modelMap args)) ->
  NoDup (JsObj.keys (groupModelsNameByImportPath (importedModels (args_modelMap args)))) ->
  args_context args = Some context ->
  let grouped := groupModelsNameByImportPath (importedModels (args_modelMap args)) in
  let names :=
    (match JsObj.get (contextPath context) grouped with
     | Some names => names
     | None => []
     end ++ [getContextName (Some context)])%list in
  exists before after,
    renderImports args
    = join EOL (map importLine before
                ++ importLine (contextPath context, names) :: map importLine after)
    /\ ~ In (contextPath context) (JsObj.keys before)
    /\ ~ In (contextPath context) (JsObj.keys after)
    /\ (In (contextPath context) (JsObj.keys grouped) ->
        JsObj.keys grouped
        = JsObj.keys (before ++ (contextPath context, names) :: after)%list)
    /\ (~ In (contextPath context) (JsObj.keys grouped) ->
        grouped = before /\ after = []).
Proof.
  intros Hmodels Hgrouped Hcontext grouped names.
  destruct (set_split (contextPath context) names grouped Hgrouped)
    as [before [after [Hset Hrest]]].
  exists before, after. split; [| exact Hrest].
  pose proof (keys_filter_get (args_modelMap args)
                (fun model => negb (isEnumAlias model))
                (args_modelMap args) Hmodels (incl_refl _)) as Hkeys.
  unfold isEnumAlias in Hkeys.
  assert (Hout : renderImports args
                 = importsToString (JsObj.set (contextPath context) names grouped)).
  { unfold renderImports, JsObj.keys. cbv zeta. rewrite Hkeys, Hcontext. reflexivity. }
  rewrite Hout, importsToString_lines by now apply keys_set_NoDup.
  now rewrite Hset, map_app.
Qed.

End Imports.

Lemma renderImports_leaves_out_aliases_with_isEnum_witness :
  renderImports (X := Sample.externals)
    (mkArgs [] [] [] None Sample.modelsWithEnum false)
  = "import { CatModel, DogModel } from './models'" ++ nl ++ "type Context = any".
Proof.
  apply (proj2 (renderImports_leaves_out_aliases_with_isEnum (X := Sample.externals)
                  (mkArgs [] [] [] None Sample.modelsWithEnum false)
                  ltac:(repeat constructor; simpl; intuition discriminate))).
Defined.

Lemma context_imported_with_models_of_its_path_witness :
  exists before after,
    renderImports (X := Sample.externals)
      (mkArgs [] [] [] (Some (mkContext "./models" "Ctx")) Sample.modelsWithEnum false)
    = join nl (map importLine before
               ++ importLine ("./models", ["CatModel"; "DogModel"; "Ctx"])
                  :: map importLine after)
    /\ ~ In "./models" (JsObj.keys before)
    /\ ~ In "./models" (JsObj.keys after).
Proof.
  destruct (context_imported_with_models_of_its_path (X := Sample.externals)
              (mkArgs [] [] [] (Some (mkContext "./models" "Ctx"))
                      Sample.modelsWithEnum false)
              (mkContext "./models" "Ctx")
              ltac:(repeat constructor; simpl; intuition discriminate)
              ltac:(repeat constructor; simpl; intuition discriminate)
              eq_refl)
    as [before [after [Hout [Hb [Ha _]]]]].
  exists before, after. split; [exact Hout | split; assumption].
Defined.
